(** * IssueReporterModel: the issue-report record and its Markdown rendering

    Shallow embedding of
    [src/vs/code/electron-sandbox/issue/issueReporterModel.ts].

    The class [IssueReporterModel] owns one mutable record [_data]; every
    method is a function of the receiver [this], and [update], the only
    mutating method, returns the receiver after the mutation.  Strings are
    [string]; a template literal is written as the concatenation of its
    literal chunks and of its interpolated values, each interpolated value
    going through [toString].

    A [string] holds the UTF-8 bytes of the text (a surrogate that stands
    alone is kept as the three bytes of its own value).  JavaScript counts
    the positions of a string in UTF-16 code units, so the one operation of
    the file that cuts a string, [substr], works on the code units of the
    text.  Every interpolated value of the file stands between literal
    chunks, so joining the bytes of the pieces is joining the texts. *)

From Stdlib Require Import ZArith String Ascii List DecimalString Bool Lia.
From Stdlib Require Import NArith Sorted.
Import ListNotations.
Open Scope list_scope.
Open Scope string_scope.

(** ** The fragment of JavaScript the file relies on *)

Module JS.

(** The line feed that ends each line of a template literal. *)
Definition nl : string := String (ascii_of_nat 10) EmptyString.

(** [`${v}`]: the string a value turns into when a template literal
    interpolates it. *)
Class ToString (A : Type) := toString : A -> string.

#[export] Instance string_ToString : ToString string := fun s => s.

(** A count is an integer; it prints in decimal, with a sign when
    negative (JavaScript prints every integer below 10^21 in absolute
    value with all its digits). *)
#[export] Instance Z_ToString : ToString Z :=
  fun z => NilZero.string_of_int (Z.to_int z).

(** [Array.prototype.length]. *)
#[export] Instance nat_ToString : ToString nat :=
  fun n => NilZero.string_of_uint (Nat.to_uint n).

(** An optional property reads as [undefined] when it is absent, and
    [`${undefined}`] is the text [undefined]. *)
#[export] Instance option_ToString {A} `{ToString A} : ToString (option A) :=
  fun o => match o with
           | Some a => toString a
           | None => "undefined"
           end.

(** The truth value a condition gives to a value ([if (v)], [v ? a : b],
    [!v], [v && w]). *)
Class Truthy (A : Type) := truthy : A -> bool.

#[export] Instance bool_Truthy : Truthy bool := fun b => b.

(** A number is falsy exactly when it is zero. *)
#[export] Instance Z_Truthy : Truthy Z := fun z => negb (Z.eqb z 0).
#[export] Instance nat_Truthy : Truthy nat := fun n => negb (Nat.eqb n 0).

(** An array is an object, and every object is truthy. *)
#[export] Instance list_Truthy {A} : Truthy (list A) := fun _ => true.

(** [undefined] is falsy. *)
#[export] Instance option_Truthy {A} `{Truthy A} : Truthy (option A) :=
  fun o => match o with
           | Some a => truthy a
           | None => false
           end.

(** [a && b] for a boolean [a] and an optional boolean [b]: the left
    operand when it is falsy, the right operand otherwise. *)
Definition and_ (a : bool) (b : option bool) : option bool :=
  if a then b else Some a.

(** [Array.prototype.join]. *)
Definition join (sep : string) (l : list string) : string :=
  String.concat sep l.

(** The value of a byte of the text. *)
Definition byteOf (c : ascii) : N := N_of_ascii c.

(** A continuation byte of a multi-byte character. *)
Definition isCont (c : ascii) : bool :=
  (N.leb 0x80 (byteOf c) && N.ltb (byteOf c) 0xC0)%N.

(** The UTF-16 code units of a text: one unit for a character of one, two
    or three bytes, the two surrogates for a character of four bytes.  A
    byte that starts no character reads as U+FFFD. *)
Fixpoint toCodeUnits (s : string) : list N :=
  match s with
  | EmptyString => []
  | String c0 s1 =>
      let b0 := byteOf c0 in
      if (b0 <? 0x80)%N then b0 :: toCodeUnits s1
      else
        match s1 with
        | String c1 s2 =>
            if ((0xC0 <=? b0) && (b0 <? 0xE0))%N && isCont c1 then
              ((b0 - 0xC0) * 0x40 + (byteOf c1 - 0x80))%N :: toCodeUnits s2
            else
              match s2 with
              | String c2 s3 =>
                  if ((0xE0 <=? b0) && (b0 <? 0xF0))%N && isCont c1
                     && isCont c2
                  then
                    ((b0 - 0xE0) * 0x1000 + (byteOf c1 - 0x80) * 0x40
                     + (byteOf c2 - 0x80))%N :: toCodeUnits s3
                  else
                    match s3 with
                    | String c3 s4 =>
                        let cp :=
                          ((b0 - 0xF0) * 0x40000
                           + (byteOf c1 - 0x80) * 0x1000
                           + (byteOf c2 - 0x80) * 0x40
                           + (byteOf c3 - 0x80))%N in
                        if (0xF0 <=? b0)%N && isCont c1 && isCont c2
                           && isCont c3
                           && ((0x10000 <=? cp) && (cp <? 0x110000))%N
                        then
                          (0xD800 + (cp - 0x10000) / 0x400)%N
                          :: (0xDC00 + (cp - 0x10000) mod 0x400)%N
                          :: toCodeUnits s4
                        else 0xFFFD%N :: toCodeUnits s1
                    | EmptyString => 0xFFFD%N :: toCodeUnits s1
                    end
              | EmptyString => 0xFFFD%N :: toCodeUnits s1
              end
        | EmptyString => [0xFFFD%N]
        end
  end.

(** The bytes of one character, given by its code point. *)
Definition utf8 (u : N) : string :=
  if (u <? 0x80)%N then String (ascii_of_N u) ""
  else if (u <? 0x800)%N then
    String (ascii_of_N (0xC0 + u / 0x40))
      (String (ascii_of_N (0x80 + u mod 0x40)) "")
  else if (u <? 0x10000)%N then
    String (ascii_of_N (0xE0 + u / 0x1000))
      (String (ascii_of_N (0x80 + (u / 0x40) mod 0x40))
         (String (ascii_of_N (0x80 + u mod 0x40)) ""))
  else
    String (ascii_of_N (0xF0 + u / 0x40000))
      (String (ascii_of_N (0x80 + (u / 0x1000) mod 0x40))
         (String (ascii_of_N (0x80 + (u / 0x40) mod 0x40))
            (String (ascii_of_N (0x80 + u mod 0x40)) ""))).

(** The two halves of a surrogate pair. *)
Definition isHigh (u : N) : bool := ((0xD800 <=? u) && (u <? 0xDC00))%N.
Definition isLow (u : N) : bool := ((0xDC00 <=? u) && (u <? 0xE000))%N.

(** The text of a sequence of UTF-16 code units: a high surrogate followed
    by a low one is one character of four bytes, every other unit is a
    character of its own. *)
Fixpoint fromCodeUnits (l : list N) : string :=
  match l with
  | [] => ""
  | u :: l1 =>
      match l1 with
      | v :: l2 =>
          if isHigh u && isLow v then
            utf8 (0x10000 + (u - 0xD800) * 0x400 + (v - 0xDC00))%N
            ++ fromCodeUnits l2
          else utf8 u ++ fromCodeUnits l1
      | [] => utf8 u
      end
  end.

(** [String.prototype.length]: the number of UTF-16 code units. *)
Definition String_length (s : string) : nat := List.length (toCodeUnits s).

(** The bytes are the text of some JavaScript string. *)
Definition wellFormed (s : string) : bool :=
  String.eqb (fromCodeUnits (toCodeUnits s)) s.

(** [String.prototype.substr(start, length)]: [length] code units from
    code unit [start] on, or as many as there are. *)
Definition substr (s : string) (start len : nat) : string :=
  fromCodeUnits (firstn len (skipn start (toCodeUnits s))).

(** [String.prototype.includes]. *)
Fixpoint includes (s needle : string) : bool :=
  String.prefix needle s ||
  match s with
  | EmptyString => false
  | String _ s' => includes s' needle
  end.

End JS.
Import JS.

(** ** The imported declarations *)

(** Modelled from the spec: the enum [IssueType] of
    [vs/platform/issue/common/issue], whose declaration is not part of this
    file; it has the three values Bug, PerformanceIssue and FeatureRequest. *)
Inductive IssueType : Set :=
  | Bug
  | PerformanceIssue
  | FeatureRequest.

(** [===] on two values of the enum. *)
Definition IssueType_eqb (a b : IssueType) : bool :=
  match a, b with
  | Bug, Bug => true
  | PerformanceIssue, PerformanceIssue => true
  | FeatureRequest, FeatureRequest => true
  | _, _ => false
  end.

(** Modelled from the spec: the extension descriptor
    [IssueReporterExtensionData] of [vs/platform/issue/common/issue], with
    the three properties the model reads (name, publisher, version). *)
Record IssueReporterExtensionData : Set := {
  name : string;
  publisher : string;
  version : string
}.

#[export] Instance IssueReporterExtensionData_Truthy :
  Truthy IssueReporterExtensionData := fun _ => true.

(** Modelled from the spec: [ISettingSearchResult] of
    [vs/platform/issue/common/issue]; search-result bookkeeping that the
    model stores and never reads, kept as opaque text. *)
Definition ISettingSearchResult : Set := string.

(** Modelled from the spec: [versionInfo] is declared [any]; the model reads
    its properties [vscodeVersion] and [os]. *)
Record VersionInfo : Set := {
  vscodeVersion : option string;
  os : option string
}.

(** Modelled from the spec: the Linux desktop-environment part of
    [SystemInfo] ([vs/platform/diagnostics/common/diagnostics]). *)
Record LinuxEnv : Set := {
  desktopSession : string;
  xdgCurrentDesktop : string;
  xdgSessionDesktop : string;
  xdgSessionType : string
}.

(** Modelled from the spec: the machine-info record of a remote
    connection. *)
Record MachineInfo : Set := {
  mi_os : string;
  mi_cpus : string;
  mi_memory : string;
  mi_vmHint : string
}.

(** Modelled from the spec: a per-remote-connection entry of
    [SystemInfo.remoteData] is either an error with its message or a
    machine-info result; both carry the host name. *)
Inductive RemoteData : Set :=
  | RemoteDiagnosticError (hostName : string) (errorMessage : string)
  | RemoteDiagnosticInfo (hostName : string) (machineInfo : MachineInfo).

(** Modelled from the spec: [isRemoteDiagnosticError], the externally
    supplied discriminant of the two variants. *)
Definition isRemoteDiagnosticError (remote : RemoteData) : bool :=
  match remote with
  | RemoteDiagnosticError _ _ => true
  | RemoteDiagnosticInfo _ _ => false
  end.

Definition hostName (remote : RemoteData) : string :=
  match remote with
  | RemoteDiagnosticError h _ => h
  | RemoteDiagnosticInfo h _ => h
  end.

(** Modelled from the spec: [SystemInfo] of
    [vs/platform/diagnostics/common/diagnostics].  [gpuStatus] is an object
    used as a map; it is kept as the list of its entries in the order
    [Object.keys] enumerates them. *)
Record SystemInfo : Set := {
  cpus : string;
  gpuStatus : list (string * string);
  load : string;
  memory : string;
  processArgs : string;
  screenReader : string;
  vmHint : string;
  linuxEnv : option LinuxEnv;
  remoteData : list RemoteData
}.

#[export] Instance SystemInfo_Truthy : Truthy SystemInfo := fun _ => true.

(** [Object.keys(o)] and [o[key]] on an object used as a map. *)
Definition Object_keys (o : list (string * string)) : list string :=
  map fst o.

Fixpoint Object_get (o : list (string * string)) (key : string)
  : option string :=
  match o with
  | [] => None
  | (k, v) :: o' => if String.eqb k key then Some v else Object_get o' key
  end.

(** ** The record *)

Module Data.

(** [interface IssueReporterData].  A property marked [?] is an [option]:
    [None] is the property absent (or [undefined], which reads the
    same). *)
Record IssueReporterData : Set := {
  issueType : IssueType;
  issueDescription : option string;

  versionInfo : option VersionInfo;
  systemInfo : option SystemInfo;
  processInfo : option string;
  workspaceInfo : option string;

  includeSystemInfo : bool;
  includeWorkspaceInfo : bool;
  includeProcessInfo : bool;
  includeExtensions : bool;
  includeSearchedExtensions : bool;
  includeSettingsSearchDetails : bool;

  numberOfThemeExtesions : option Z;
  allExtensions : list IssueReporterExtensionData;
  enabledNonThemeExtesions : option (list IssueReporterExtensionData);
  extensionsDisabled : option bool;
  fileOnExtension : option bool;
  selectedExtension : option IssueReporterExtensionData;
  actualSearchResults : option (list ISettingSearchResult);
  query : option string;
  filterResultCount : option Z
}.

(** The property names of the record. *)
Inductive Field : Set :=
  | F_issueType
  | F_issueDescription
  | F_versionInfo
  | F_systemInfo
  | F_processInfo
  | F_workspaceInfo
  | F_includeSystemInfo
  | F_includeWorkspaceInfo
  | F_includeProcessInfo
  | F_includeExtensions
  | F_includeSearchedExtensions
  | F_includeSettingsSearchDetails
  | F_numberOfThemeExtesions
  | F_allExtensions
  | F_enabledNonThemeExtesions
  | F_extensionsDisabled
  | F_fileOnExtension
  | F_selectedExtension
  | F_actualSearchResults
  | F_query
  | F_filterResultCount.

Definition Field_eq_dec (f g : Field) : {f = g} + {f <> g}.
Proof. decide equality. Defined.

(** The declared type of each property. *)
Definition field_type (f : Field) : Set :=
  match f with
  | F_issueType => IssueType
  | F_issueDescription => option string
  | F_versionInfo => option VersionInfo
  | F_systemInfo => option SystemInfo
  | F_processInfo => option string
  | F_workspaceInfo => option string
  | F_includeSystemInfo => bool
  | F_includeWorkspaceInfo => bool
  | F_includeProcessInfo => bool
  | F_includeExtensions => bool
  | F_includeSearchedExtensions => bool
  | F_includeSettingsSearchDetails => bool
  | F_numberOfThemeExtesions => option Z
  | F_allExtensions => list IssueReporterExtensionData
  | F_enabledNonThemeExtesions => option (list IssueReporterExtensionData)
  | F_extensionsDisabled => option bool
  | F_fileOnExtension => option bool
  | F_selectedExtension => option IssueReporterExtensionData
  | F_actualSearchResults => option (list ISettingSearchResult)
  | F_query => option string
  | F_filterResultCount => option Z
  end.

(** [data[f]]: reading a property by its name. *)
Definition get (f : Field) (data : IssueReporterData) : field_type f :=
  match f with
  | F_issueType => issueType data
  | F_issueDescription => issueDescription data
  | F_versionInfo => versionInfo data
  | F_systemInfo => systemInfo data
  | F_processInfo => processInfo data
  | F_workspaceInfo => workspaceInfo data
  | F_includeSystemInfo => includeSystemInfo data
  | F_includeWorkspaceInfo => includeWorkspaceInfo data
  | F_includeProcessInfo => includeProcessInfo data
  | F_includeExtensions => includeExtensions data
  | F_includeSearchedExtensions => includeSearchedExtensions data
  | F_includeSettingsSearchDetails => includeSettingsSearchDetails data
  | F_numberOfThemeExtesions => numberOfThemeExtesions data
  | F_allExtensions => allExtensions data
  | F_enabledNonThemeExtesions => enabledNonThemeExtesions data
  | F_extensionsDisabled => extensionsDisabled data
  | F_fileOnExtension => fileOnExtension data
  | F_selectedExtension => selectedExtension data
  | F_actualSearchResults => actualSearchResults data
  | F_query => query data
  | F_filterResultCount => filterResultCount data
  end.

(** [Partial<IssueReporterData>]: an object that holds any subset of the
    properties.  [p f = None] is the key [f] missing from the object;
    [p f = Some v] is the key present with value [v] (for a [?] property,
    [v = None] is the key present with value [undefined]). *)
Definition Partial : Set := forall f : Field, option (field_type f).

(** The object literal [{}]. *)
Definition empty : Partial := fun _ => None.

(** The object literal [{f: v}]. *)
Definition single (f : Field) (v : field_type f) : Partial :=
  fun g =>
    match Field_eq_dec f g with
    | left e => Some (eq_rect f field_type v g e)
    | right _ => None
    end.

(** [{...p, f: v}]: one more key on an object literal. *)
Definition with_ (p : Partial) (f : Field) (v : field_type f) : Partial :=
  fun g =>
    match single f v g with
    | Some w => Some w
    | None => p g
    end.

(** [Object.assign(target, source)]: every key of [source] is written to
    [target], whatever its value; the other properties of [target] stay.
    The result is [target] itself, after the writes. *)
Definition Object_assign (target : IssueReporterData) (source : Partial)
  : IssueReporterData :=
  let put (f : Field) : field_type f :=
    match source f with
    | Some v => v
    | None => get f target
    end in
  {| issueType := put F_issueType;
     issueDescription := put F_issueDescription;
     versionInfo := put F_versionInfo;
     systemInfo := put F_systemInfo;
     processInfo := put F_processInfo;
     workspaceInfo := put F_workspaceInfo;
     includeSystemInfo := put F_includeSystemInfo;
     includeWorkspaceInfo := put F_includeWorkspaceInfo;
     includeProcessInfo := put F_includeProcessInfo;
     includeExtensions := put F_includeExtensions;
     includeSearchedExtensions := put F_includeSearchedExtensions;
     includeSettingsSearchDetails := put F_includeSettingsSearchDetails;
     numberOfThemeExtesions := put F_numberOfThemeExtesions;
     allExtensions := put F_allExtensions;
     enabledNonThemeExtesions := put F_enabledNonThemeExtesions;
     extensionsDisabled := put F_extensionsDisabled;
     fileOnExtension := put F_fileOnExtension;
     selectedExtension := put F_selectedExtension;
     actualSearchResults := put F_actualSearchResults;
     query := put F_query;
     filterResultCount := put F_filterResultCount |}.

End Data.
Import Data.

(** ** The class *)

Module IssueReporterModel.

(** An instance: its one private property. *)
Record t : Set := { _data : IssueReporterData }.

Definition constructor (initialData : option Partial) : t :=
  let defaultData :=
    {| issueType := Bug;
       issueDescription := None;
       versionInfo := None;
       systemInfo := None;
       processInfo := None;
       workspaceInfo := None;
       includeSystemInfo := true;
       includeWorkspaceInfo := true;
       includeProcessInfo := true;
       includeExtensions := true;
       includeSearchedExtensions := true;
       includeSettingsSearchDetails := true;
       numberOfThemeExtesions := None;
       allExtensions := [];
       enabledNonThemeExtesions := None;
       extensionsDisabled := None;
       fileOnExtension := None;
       selectedExtension := None;
       actualSearchResults := None;
       query := None;
       filterResultCount := None |} in
  {| _data := match initialData with
              | Some initialData => Object_assign defaultData initialData
              | None => defaultData
              end |}.

Definition getData (this : t) : IssueReporterData := _data this.

(** [update] mutates [_data] in place; the result is the receiver after the
    call. *)
Definition update (this : t) (newData : Partial) : t :=
  {| _data := Object_assign (_data this) newData |}.

Definition getRemoteOSes (this : t) : string :=
  match systemInfo (_data this) with
  | Some systemInfo =>
      if truthy (List.length (remoteData systemInfo)) then
        join nl
          (map (fun remote =>
                  match remote with
                  | RemoteDiagnosticError _ errorMessage => errorMessage
                  | RemoteDiagnosticInfo _ machineInfo =>
                      "Remote OS version: " ++ mi_os machineInfo
                  end)
               (remoteData systemInfo))
        ++ nl
      else ""
  | None => ""
  end.

(** The local constant [fileOnExtensionSupported] of [fileOnExtension]. *)
Definition fileOnExtensionSupported (this : t) : bool :=
  IssueType_eqb (issueType (_data this)) Bug
  || IssueType_eqb (issueType (_data this)) PerformanceIssue
  || IssueType_eqb (issueType (_data this)) FeatureRequest.

Definition fileOnExtension (this : t) : option bool :=
  and_ (fileOnExtensionSupported this) (Data.fileOnExtension (_data this)).

Definition getExtensionVersion (this : t) : string :=
  if truthy (fileOnExtension this) && truthy (selectedExtension (_data this))
  then
    match selectedExtension (_data this) with
    | Some selectedExtension =>
        nl ++ "Extension version: " ++ version selectedExtension
    | None => ""
    end
  else "".

Definition getIssueTypeTitle (this : t) : string :=
  if IssueType_eqb (issueType (_data this)) Bug then "Bug"
  else if IssueType_eqb (issueType (_data this)) PerformanceIssue
  then "Performance Issue"
  else "Feature Request".

(** One remote entry's contribution to the System Info block: the body of
    the [forEach] callback, as the text it appends to [md]. *)
Definition remoteSystemInfoMd (remote : RemoteData) : string :=
  match remote with
  | RemoteDiagnosticError _ errorMessage => nl ++ nl ++ errorMessage
  | RemoteDiagnosticInfo hostName machineInfo =>
      nl ++ nl
      ++ "|Item|Value|" ++ nl
      ++ "|---|---|" ++ nl
      ++ "|Remote|" ++ hostName ++ "|" ++ nl
      ++ "|OS|" ++ mi_os machineInfo ++ "|" ++ nl
      ++ "|CPUs|" ++ mi_cpus machineInfo ++ "|" ++ nl
      ++ "|Memory (System)|" ++ mi_memory machineInfo ++ "|" ++ nl
      ++ "|VM|" ++ mi_vmHint machineInfo ++ "|"
  end.

Definition generateSystemInfoMd (this : t) : string :=
  let md :=
    "<details>" ++ nl
    ++ "<summary>System Info</summary>" ++ nl
    ++ nl
    ++ "|Item|Value|" ++ nl
    ++ "|---|---|" ++ nl in
  let md :=
    match systemInfo (_data this) with
    | Some systemInfo =>
        let md :=
          md
          ++ "|CPUs|" ++ cpus systemInfo ++ "|" ++ nl
          ++ "|GPU Status|"
          ++ join "<br>"
               (map (fun key =>
                       key ++ ": "
                       ++ toString (Object_get (gpuStatus systemInfo) key))
                    (Object_keys (gpuStatus systemInfo)))
          ++ "|" ++ nl
          ++ "|Load (avg)|" ++ load systemInfo ++ "|" ++ nl
          ++ "|Memory (System)|" ++ memory systemInfo ++ "|" ++ nl
          ++ "|Process Argv|" ++ processArgs systemInfo ++ "|" ++ nl
          ++ "|Screen Reader|" ++ screenReader systemInfo ++ "|" ++ nl
          ++ "|VM|" ++ vmHint systemInfo ++ "|" in
        let md :=
          match linuxEnv systemInfo with
          | Some linuxEnv =>
              md
              ++ nl ++ "|DESKTOP_SESSION|" ++ desktopSession linuxEnv
              ++ "|" ++ nl
              ++ "|XDG_CURRENT_DESKTOP|" ++ xdgCurrentDesktop linuxEnv
              ++ "|" ++ nl
              ++ "|XDG_SESSION_DESKTOP|" ++ xdgSessionDesktop linuxEnv
              ++ "|" ++ nl
              ++ "|XDG_SESSION_TYPE|" ++ xdgSessionType linuxEnv ++ "|"
          | None => md
          end in
        fold_left (fun md remote => md ++ remoteSystemInfoMd remote)
          (remoteData systemInfo) md
    | None => md
    end in
  let md := md ++ nl ++ "</details>" in
  md.

Definition generateProcessInfoMd (this : t) : string :=
  "<details>" ++ nl
  ++ "<summary>Process Info</summary>" ++ nl
  ++ nl
  ++ "```" ++ nl
  ++ toString (processInfo (_data this)) ++ nl
  ++ "```" ++ nl
  ++ nl
  ++ "</details>" ++ nl.

Definition generateWorkspaceInfoMd (this : t) : string :=
  "<details>" ++ nl
  ++ "<summary>Workspace Info</summary>" ++ nl
  ++ nl
  ++ "```" ++ nl
  ++ toString (workspaceInfo (_data this)) ++ ";" ++ nl
  ++ "```" ++ nl
  ++ nl
  ++ "</details>" ++ nl.

Definition generateExtensionsMd (this : t) : string :=
  if truthy (extensionsDisabled (_data this)) then "Extensions disabled"
  else
    let themeExclusionStr :=
      if truthy (numberOfThemeExtesions (_data this))
      then nl ++ "(" ++ toString (numberOfThemeExtesions (_data this))
           ++ " theme extensions excluded)"
      else "" in
    match enabledNonThemeExtesions (_data this) with
    | None => "Extensions: none" ++ themeExclusionStr
    | Some enabledNonThemeExtesions =>
        let tableHeader :=
          "Extension|Author (truncated)|Version" ++ nl
          ++ "---|---|---" in
        let table :=
          join nl
            (map (fun e =>
                    name e ++ "|" ++ substr (publisher e) 0 3 ++ "|"
                    ++ version e)
                 enabledNonThemeExtesions) in
        "<details><summary>Extensions ("
        ++ toString (List.length enabledNonThemeExtesions)
        ++ ")</summary>" ++ nl
        ++ nl
        ++ tableHeader ++ nl
        ++ table ++ nl
        ++ themeExclusionStr ++ nl
        ++ nl
        ++ "</details>"
    end.

Definition getInfos (this : t) : string :=
  let info := "" in
  let info :=
    if IssueType_eqb (issueType (_data this)) Bug
       || IssueType_eqb (issueType (_data this)) PerformanceIssue
    then
      if includeSystemInfo (_data this) && truthy (systemInfo (_data this))
      then info ++ generateSystemInfoMd this
      else info
    else info in
  let info :=
    if IssueType_eqb (issueType (_data this)) PerformanceIssue then
      let info :=
        if includeProcessInfo (_data this)
        then info ++ generateProcessInfoMd this
        else info in
      let info :=
        if includeWorkspaceInfo (_data this)
        then info ++ generateWorkspaceInfoMd this
        else info in
      info
    else info in
  let info :=
    if IssueType_eqb (issueType (_data this)) Bug
       || IssueType_eqb (issueType (_data this)) PerformanceIssue
    then
      if negb (truthy (Data.fileOnExtension (_data this)))
         && includeExtensions (_data this)
      then info ++ generateExtensionsMd this
      else info
    else info in
  info.

Definition serialize (this : t) : string :=
  nl
  ++ "Issue Type: <b>" ++ getIssueTypeTitle this ++ "</b>" ++ nl
  ++ nl
  ++ toString (issueDescription (_data this)) ++ nl
  ++ getExtensionVersion this ++ nl
  ++ "VS Code version: "
  ++ toString (match versionInfo (_data this) with
               | Some versionInfo => vscodeVersion versionInfo
               | None => None
               end) ++ nl
  ++ "OS version: "
  ++ toString (match versionInfo (_data this) with
               | Some versionInfo => os versionInfo
               | None => None
               end) ++ nl
  ++ getRemoteOSes this ++ nl
  ++ getInfos this ++ nl
  ++ "<!-- generated by issue reporter -->".

End IssueReporterModel.


(** ** Vocabulary of the statements *)

Module Spec.
Import IssueReporterModel.

(** A collapsible block with a title and a code-fenced body. *)
Definition collapsibleFenced (title body : string) : string :=
  "<details>" ++ nl
  ++ "<summary>" ++ title ++ "</summary>" ++ nl
  ++ nl
  ++ "```" ++ nl
  ++ body ++ nl
  ++ "```" ++ nl
  ++ nl
  ++ "</details>" ++ nl.

(** The four optional sections of the report. *)
Inductive InfoBlock : Set :=
  | SystemInfoBlock
  | ProcessInfoBlock
  | WorkspaceInfoBlock
  | ExtensionsBlock.

(** The sections [getInfos] appends, in the order it appends them: its four
    guards, read off as a list instead of an accumulated string. *)
Definition infoBlocks (this : t) : list InfoBlock :=
  let data := getData this in
  let isBug := IssueType_eqb (issueType data) Bug in
  let isPerf := IssueType_eqb (issueType data) PerformanceIssue in
  (if (isBug || isPerf) && includeSystemInfo data && truthy (systemInfo data)
   then [SystemInfoBlock] else [])
  ++ (if isPerf && includeProcessInfo data then [ProcessInfoBlock] else [])
  ++ (if isPerf && includeWorkspaceInfo data
      then [WorkspaceInfoBlock] else [])
  ++ (if (isBug || isPerf) && negb (truthy (Data.fileOnExtension data))
         && includeExtensions data
      then [ExtensionsBlock] else []).

(** The text of a section. *)
Definition renderBlock (this : t) (b : InfoBlock) : string :=
  match b with
  | SystemInfoBlock => generateSystemInfoMd this
  | ProcessInfoBlock => generateProcessInfoMd this
  | WorkspaceInfoBlock => generateWorkspaceInfoMd this
  | ExtensionsBlock => generateExtensionsMd this
  end.

(** The fixed layout of the report, with its seven slots: title,
    description, extension-version segment, editor version, OS version,
    remote-OS segment and info sections. *)
Definition report (title description extensionVersion vscodeVersion os
                   remoteOSes infos : string) : string :=
  nl
  ++ "Issue Type: <b>" ++ title ++ "</b>" ++ nl
  ++ nl
  ++ description ++ nl
  ++ extensionVersion ++ nl
  ++ "VS Code version: " ++ vscodeVersion ++ nl
  ++ "OS version: " ++ os ++ nl
  ++ remoteOSes ++ nl
  ++ infos ++ nl
  ++ "<!-- generated by issue reporter -->".

(** [versionInfo && versionInfo.vscodeVersion] and
    [versionInfo && versionInfo.os], as interpolated. *)
Definition vscodeVersionText (data : IssueReporterData) : string :=
  toString (match versionInfo data with
            | Some versionInfo => vscodeVersion versionInfo
            | None => None
            end).

Definition osText (data : IssueReporterData) : string :=
  toString (match versionInfo data with
            | Some versionInfo => os versionInfo
            | None => None
            end).

(** The line of the report that names the version of an extension. *)
Definition extensionVersionLine (v : string) : string :=
  "Extension version: " ++ v.

(** The remote-OS line of one remote entry. *)
Definition remoteOSLine (remote : RemoteData) : string :=
  match remote with
  | RemoteDiagnosticError _ errorMessage => errorMessage
  | RemoteDiagnosticInfo _ machineInfo =>
      "Remote OS version: " ++ mi_os machineInfo
  end.

(** The remote-OS segment in the words of the specification: the lines of
    the entries, newline-joined and followed by one newline, when there is
    an entry; nothing otherwise. *)
Definition remoteOSesSpec (systemInfo : option SystemInfo) : string :=
  match systemInfo with
  | None => ""
  | Some systemInfo =>
      match remoteData systemInfo with
      | [] => ""
      | _ :: _ => join nl (map remoteOSLine (remoteData systemInfo)) ++ nl
      end
  end.

(** A row of the extensions table. *)
Definition extensionRow (e : IssueReporterExtensionData) : string :=
  name e ++ "|" ++ substr (publisher e) 0 3 ++ "|" ++ version e.

(** The theme-exclusion suffix: present exactly for a count that is there
    and is not zero. *)
Definition themeExclusionSuffix (n : option Z) : string :=
  match n with
  | Some n =>
      if Z.eqb n 0 then ""
      else nl ++ "(" ++ toString n ++ " theme extensions excluded)"
  | None => ""
  end.

(** The collapsible extensions table: title with the count, header, one row
    per extension in sequence order, then the suffix. *)
Definition extensionsTable (exts : list IssueReporterExtensionData)
  (n : option Z) : string :=
  "<details><summary>Extensions (" ++ toString (List.length exts)
  ++ ")</summary>" ++ nl
  ++ nl
  ++ "Extension|Author (truncated)|Version" ++ nl
  ++ "---|---|---" ++ nl
  ++ join nl (map extensionRow exts) ++ nl
  ++ themeExclusionSuffix n ++ nl
  ++ nl
  ++ "</details>".

(** The defaults of the constructor, by property. *)
Definition defaultOf (f : Field) : field_type f :=
  match f with
  | F_issueType => Bug
  | F_issueDescription => None
  | F_versionInfo => None
  | F_systemInfo => None
  | F_processInfo => None
  | F_workspaceInfo => None
  | F_includeSystemInfo => true
  | F_includeWorkspaceInfo => true
  | F_includeProcessInfo => true
  | F_includeExtensions => true
  | F_includeSearchedExtensions => true
  | F_includeSettingsSearchDetails => true
  | F_numberOfThemeExtesions => None
  | F_allExtensions => []
  | F_enabledNonThemeExtesions => None
  | F_extensionsDisabled => None
  | F_fileOnExtension => None
  | F_selectedExtension => None
  | F_actualSearchResults => None
  | F_query => None
  | F_filterResultCount => None
  end.

End Spec.

(** ** Sample records *)

Module Samples.
Import IssueReporterModel.

Definition foo : IssueReporterExtensionData :=
  {| name := "Foo"; publisher := "PublisherName"; version := "0.1" |}.

Definition lukasz : IssueReporterExtensionData :=
  {| name := "Tabs"; publisher := "Łukasz"; version := "2.0" |}.

Definition ext123 : IssueReporterExtensionData :=
  {| name := "Ext"; publisher := "Acme"; version := "1.2.3" |}.

(** [new IssueReporterModel({issueType: Bug, fileOnExtension: flag,
    selectedExtension: ext123})]. *)
Definition bugOnExtension (flag : bool) : t :=
  constructor
    (Some (with_ (with_ (with_ empty F_issueType Bug)
                    F_fileOnExtension (Some flag))
             F_selectedExtension (Some ext123))).

(** [new IssueReporterModel({issueType: PerformanceIssue,
    includeProcessInfo: true, processInfo: "trace-data",
    includeWorkspaceInfo: true, workspaceInfo: "trace-data"})]. *)
Definition perfTrace : t :=
  constructor
    (Some (with_ (with_ (with_ (with_ (with_ empty
             F_issueType PerformanceIssue)
             F_includeProcessInfo true)
             F_processInfo (Some "trace-data"))
             F_includeWorkspaceInfo true)
             F_workspaceInfo (Some "trace-data"))).

(** [new IssueReporterModel({enabledNonThemeExtesions: [foo],
    numberOfThemeExtesions: 2})]. *)
Definition oneExtension : t :=
  constructor
    (Some (with_ (with_ empty F_enabledNonThemeExtesions (Some [foo]))
             F_numberOfThemeExtesions (Some 2%Z))).

(** The same with the extension host disabled. *)
Definition oneExtensionDisabled : t :=
  update oneExtension (single F_extensionsDisabled (Some true)).

Definition remoteSystem : SystemInfo :=
  {| cpus := "8"; gpuStatus := [("webgl", "enabled")]; load := "1, 1, 1";
     memory := "16GB"; processArgs := ""; screenReader := "no";
     vmHint := "0%"; linuxEnv := None;
     remoteData :=
       [ RemoteDiagnosticInfo "host-a"
           {| mi_os := "Linux x64"; mi_cpus := "4"; mi_memory := "8GB";
              mi_vmHint := "0%" |};
         RemoteDiagnosticError "host-b" "Unable to connect" ] |}.

Definition withRemotes : t :=
  constructor (Some (single F_systemInfo (Some remoteSystem))).

(** A feature request with every section switched on and the source of
    every section present. *)
Definition featureRequest : t :=
  update perfTrace
    (with_ (with_ (with_ empty F_issueType FeatureRequest)
              F_enabledNonThemeExtesions (Some [foo]))
       F_systemInfo (Some remoteSystem)).

End Samples.

(** ** Vocabulary of the laws of the record and of the report *)

Module Laws.
Import IssueReporterModel.

(** [String.prototype.startsWith] and [String.prototype.endsWith]. *)
Definition startsWith (s p : string) : bool := String.prefix p s.

Fixpoint endsWith (s p : string) : bool :=
  String.eqb s p ||
  match s with
  | EmptyString => false
  | String _ s' => endsWith s' p
  end.

(** The object literal [{...p, ...q}]: the keys of both, the value of [q]
    where both have the key. *)
Definition merge (p q : Partial) : Partial :=
  fun f =>
    match q f with
    | Some v => Some v
    | None => p f
    end.

(** The properties some method called by [serialize] reads. *)
Definition serializeReads (f : Field) : bool :=
  match f with
  | F_includeSearchedExtensions
  | F_includeSettingsSearchDetails
  | F_allExtensions
  | F_actualSearchResults
  | F_query
  | F_filterResultCount => false
  | _ => true
  end.

(** The place of a section in the report. *)
Definition blockRank (b : Spec.InfoBlock) : nat :=
  match b with
  | Spec.SystemInfoBlock => 0
  | Spec.ProcessInfoBlock => 1
  | Spec.WorkspaceInfoBlock => 2
  | Spec.ExtensionsBlock => 3
  end.

(** The closing line of the report. *)
Definition generatedMarker : string :=
  "<!-- generated by issue reporter -->".

End Laws.

(** ** Strings *)

Section StringFacts.

Lemma append_assoc (a b c : string) : (a ++ b) ++ c = a ++ (b ++ c).
Proof.
  induction a as [|x a IH]; simpl.
  - reflexivity.
  - now rewrite IH.
Qed.

Lemma append_nil_r (a : string) : a ++ "" = a.
Proof.
  induction a as [|x a IH]; simpl; [reflexivity | now rewrite IH].
Qed.

Lemma length_append (a b : string) :
  String.length (a ++ b) = String.length a + String.length b.
Proof.
  induction a as [|x a IH]; simpl; [reflexivity | now rewrite IH].
Qed.

Lemma append_inv_head (a b c : string) : a ++ b = a ++ c -> b = c.
Proof.
  induction a as [|x a IH]; simpl; intros E.
  - exact E.
  - injection E as E. now apply IH.
Qed.

(** A string is never one character longer than itself. *)
Lemma append_neq_self (a b : string) : b <> "" -> a ++ b <> a.
Proof.
  intros Hb E.
  assert (L : String.length (a ++ b) = String.length a) by now rewrite E.
  rewrite length_append in L.
  destruct b as [|x b]; [now apply Hb | simpl in L; lia].
Qed.

Lemma prefix_append (n b : string) : String.prefix n (n ++ b) = true.
Proof.
  induction n as [|x n IH]; simpl.
  - now destruct b.
  - destruct (ascii_dec x x) as [_|N]; [exact IH | now elim N].
Qed.

Lemma includes_unfold (s n : string) :
  includes s n
  = String.prefix n s
    || match s with
       | EmptyString => false
       | String _ s' => includes s' n
       end.
Proof. destruct s; reflexivity. Qed.

Lemma includes_head (n b : string) : includes (n ++ b) n = true.
Proof. rewrite includes_unfold, prefix_append. reflexivity. Qed.

Lemma includes_append_l (a s n : string) :
  includes s n = true -> includes (a ++ s) n = true.
Proof.
  intros H. induction a as [|x a IH]; simpl.
  - exact H.
  - rewrite IH. apply orb_true_r.
Qed.

Lemma includes_middle (a n b : string) : includes (a ++ n ++ b) n = true.
Proof. apply includes_append_l, includes_head. Qed.

(** Newline-joining lines and closing with one newline is the same as
    ending every line with a newline. *)
Lemma join_nl_terminated (l : list string) :
  l <> [] ->
  join nl l ++ nl = String.concat "" (map (fun s => s ++ nl) l).
Proof.
  induction l as [|s l IH]; intros N; [now elim N|].
  destruct l as [|s' l].
  - simpl. reflexivity.
  - change (join nl (s :: s' :: l)) with (s ++ nl ++ join nl (s' :: l)).
    change (map (fun s => s ++ nl) (s :: s' :: l))
      with ((s ++ nl) :: map (fun s => s ++ nl) (s' :: l)).
    change (String.concat "" ((s ++ nl) :: map (fun s => s ++ nl) (s' :: l)))
      with ((s ++ nl) ++ "" ++
            String.concat "" (map (fun s => s ++ nl) (s' :: l))).
    rewrite <- IH by discriminate.
    simpl. now rewrite !append_assoc.
Qed.

End StringFacts.

(** ** Construction, reading and updating *)

Section Record.
Import IssueReporterModel.

Lemma single_same (f : Field) (v : field_type f) : single f v f = Some v.
Proof. destruct f; reflexivity. Qed.

Lemma single_other (f g : Field) (v : field_type f) :
  g <> f -> single f v g = None.
Proof.
  intros N. unfold single.
  destruct (Field_eq_dec f g) as [E|_]; [now elim N | reflexivity].
Qed.

(** [Object.assign] property by property: the value of the source where the
    source has the key, the value of the target elsewhere. *)
Lemma get_Object_assign (target : IssueReporterData) (source : Partial)
  (f : Field) :
  get f (Object_assign target source)
  = match source f with
    | Some v => v
    | None => get f target
    end.
Proof. destruct f; reflexivity. Qed.

(** C4.  A model constructed with no initial data has [issueType] Bug, its
    six include-flags true and [allExtensions] empty (and every optional
    property absent); a model constructed with a partial record holds, for
    every property, the value of the partial where the partial has the key
    and the default elsewhere: the shallow overwrite of the defaults. *)
Theorem constructor_defaults_overridden :
  (let data := getData (constructor None) in
   issueType data = Bug
   /\ includeSystemInfo data = true
   /\ includeWorkspaceInfo data = true
   /\ includeProcessInfo data = true
   /\ includeExtensions data = true
   /\ includeSearchedExtensions data = true
   /\ includeSettingsSearchDetails data = true
   /\ allExtensions data = [])
  /\ (forall f : Field, get f (getData (constructor None)) = Spec.defaultOf f)
  /\ (forall (initialData : Partial) (f : Field),
        get f (getData (constructor (Some initialData)))
        = match initialData f with
          | Some v => v
          | None => Spec.defaultOf f
          end).
Proof.
  split; [|split].
  - cbv. repeat split.
  - intros f. destruct f; reflexivity.
  - intros initialData f. unfold getData, constructor. cbn [_data].
    rewrite get_Object_assign.
    destruct (initialData f); [reflexivity | destruct f; reflexivity].
Qed.

(** C5.  After [update({x: v})], [getData().x] is [v] and every other
    property holds the value it held before. *)
Theorem update_single_field (this : t) (x : Field) (v : field_type x) :
  get x (getData (update this (single x v))) = v
  /\ (forall y : Field,
        y <> x ->
        get y (getData (update this (single x v))) = get y (getData this)).
Proof.
  unfold getData, update. cbn [_data]. split.
  - now rewrite get_Object_assign, single_same.
  - intros y N. now rewrite get_Object_assign, (single_other x y v N).
Qed.

Lemma update_single_field_witness :
  get F_issueType
    (getData (update Samples.perfTrace (single F_issueType FeatureRequest)))
  = FeatureRequest
  /\ get F_processInfo
       (getData (update Samples.perfTrace (single F_issueType FeatureRequest)))
     = get F_processInfo (getData Samples.perfTrace).
Proof.
  split.
  - apply (update_single_field Samples.perfTrace F_issueType FeatureRequest).
  - apply (update_single_field Samples.perfTrace F_issueType FeatureRequest).
    discriminate.
Defined.

(** C10.  [fileOnExtension()] returns the [fileOnExtension] property of the
    record as it is: the membership check holds for each of the three issue
    types, so an unset property comes back as [undefined], not as
    [false]. *)
Theorem fileOnExtension_reads_field (this : t) :
  fileOnExtensionSupported this = true
  /\ fileOnExtension this = Data.fileOnExtension (getData this)
  /\ (Data.fileOnExtension (getData this) = None ->
      fileOnExtension this = None /\ fileOnExtension this <> Some false).
Proof.
  assert (S : fileOnExtensionSupported this = true).
  { unfold fileOnExtensionSupported.
    destruct (issueType (_data this)); reflexivity. }
  assert (E : fileOnExtension this = Data.fileOnExtension (getData this)).
  { unfold fileOnExtension. now rewrite S. }
  split; [exact S | split; [exact E|]].
  rewrite E. intros ->. split; [reflexivity | discriminate].
Qed.

Lemma fileOnExtension_reads_field_witness :
  fileOnExtension (constructor None) = None
  /\ fileOnExtension (constructor None) <> Some false.
Proof.
  apply (proj2 (proj2 (fileOnExtension_reads_field (constructor None)))).
  reflexivity.
Defined.

End Record.

(** ** The remote-OS segment *)

Section RemoteOSes.
Import IssueReporterModel.

(** C8.  The remote-OS segment is, for a [systemInfo] that is present and
    has remote entries, the newline-join over the entries in order of the
    error message (error variant) or of [Remote OS version: {os}]
    (machine-info variant), followed by one newline, that is every line
    ended by its newline; it is empty when there is no entry or no
    [systemInfo]. *)
Theorem getRemoteOSes_lines (this : t) :
  getRemoteOSes this = Spec.remoteOSesSpec (systemInfo (getData this))
  /\ (forall systemInfo0 : SystemInfo,
        systemInfo (getData this) = Some systemInfo0 ->
        remoteData systemInfo0 <> [] ->
        getRemoteOSes this
        = join nl (map Spec.remoteOSLine (remoteData systemInfo0)) ++ nl
        /\ getRemoteOSes this
           = String.concat ""
               (map (fun remote => Spec.remoteOSLine remote ++ nl)
                  (remoteData systemInfo0)))
  /\ (forall systemInfo0 : SystemInfo,
        systemInfo (getData this) = Some systemInfo0 ->
        remoteData systemInfo0 = [] ->
        getRemoteOSes this = "")
  /\ (systemInfo (getData this) = None -> getRemoteOSes this = "").
Proof.
  assert (E : getRemoteOSes this
              = Spec.remoteOSesSpec (systemInfo (getData this))).
  { unfold getRemoteOSes, Spec.remoteOSesSpec, getData.
    destruct (systemInfo (_data this)) as [si|]; [|reflexivity].
    destruct (remoteData si); reflexivity. }
  split; [exact E|]. rewrite E. unfold Spec.remoteOSesSpec.
  split; [|split].
  - intros si -> N.
    assert (J : join nl (map Spec.remoteOSLine (remoteData si)) ++ nl
                = String.concat ""
                    (map (fun remote => Spec.remoteOSLine remote ++ nl)
                       (remoteData si))).
    { rewrite join_nl_terminated, map_map; [reflexivity|].
      destruct (remoteData si); [now elim N | discriminate]. }
    rewrite <- J.
    destruct (remoteData si); [now elim N | split; reflexivity].
  - now intros si -> ->.
  - now intros ->.
Qed.

Lemma getRemoteOSes_lines_witness :
  getRemoteOSes Samples.withRemotes
  = "Remote OS version: Linux x64" ++ nl ++ "Unable to connect" ++ nl
  /\ getRemoteOSes (constructor None) = "".
Proof.
  split.
  - apply (proj1 (proj2 (getRemoteOSes_lines Samples.withRemotes))
             Samples.remoteSystem).
    + reflexivity.
    + discriminate.
  - apply (proj2 (proj2 (proj2 (getRemoteOSes_lines (constructor None))))).
    reflexivity.
Defined.

End RemoteOSes.

(** ** The extensions block *)

Section Extensions.
Import IssueReporterModel.

(** The suffix is there exactly for a truthy count. *)
Lemma themeExclusionSuffix_truthy (n : option Z) :
  Spec.themeExclusionSuffix n <> "" <-> truthy n = true.
Proof.
  cbv [Spec.themeExclusionSuffix truthy option_Truthy Z_Truthy].
  destruct n as [z|].
  - destruct (Z.eqb z 0); cbn.
    + split; [intros N; now elim N | intros E; discriminate E].
    + split; [reflexivity | intros _ E; unfold nl in E; discriminate E].
  - split; [intros N; now elim N | intros E; discriminate E].
Qed.

(** With the extension host not disabled: the [none] text for an absent
    list, the table for a list that is there. *)
Lemma generateExtensionsMd_enabled (this : t) :
  truthy (extensionsDisabled (getData this)) = false ->
  generateExtensionsMd this
  = match enabledNonThemeExtesions (getData this) with
    | None =>
        "Extensions: none"
        ++ Spec.themeExclusionSuffix (numberOfThemeExtesions (getData this))
    | Some exts =>
        Spec.extensionsTable exts (numberOfThemeExtesions (getData this))
    end.
Proof.
  unfold generateExtensionsMd, getData. intros ->.
  assert (S : (if truthy (numberOfThemeExtesions (_data this))
               then nl ++ "("
                    ++ toString (numberOfThemeExtesions (_data this))
                    ++ " theme extensions excluded)"
               else "")
              = Spec.themeExclusionSuffix
                  (numberOfThemeExtesions (_data this))).
  { destruct (numberOfThemeExtesions (_data this)) as [z|]; [|reflexivity].
    cbv [truthy option_Truthy Z_Truthy Spec.themeExclusionSuffix].
    destruct (Z.eqb z 0); reflexivity. }
  cbv zeta. rewrite S.
  destruct (enabledNonThemeExtesions (_data this)); reflexivity.
Qed.

(** C7.  With [extensionsDisabled] true the extensions block is the text
    [Extensions disabled], whatever the other properties hold. *)
Theorem generateExtensionsMd_disabled (this : t) :
  extensionsDisabled (getData this) = Some true ->
  generateExtensionsMd this = "Extensions disabled".
Proof.
  unfold generateExtensionsMd, getData. now intros ->.
Qed.

Lemma generateExtensionsMd_disabled_witness :
  enabledNonThemeExtesions (getData Samples.oneExtensionDisabled)
  = Some [Samples.foo]
  /\ generateExtensionsMd Samples.oneExtensionDisabled
     = "Extensions disabled".
Proof.
  split.
  - reflexivity.
  - apply (generateExtensionsMd_disabled Samples.oneExtensionDisabled).
    reflexivity.
Defined.

(** C6, as stated, fails: a record whose [enabledNonThemeExtesions] is
    present and non-empty renders no row at all when [extensionsDisabled]
    is true. *)
Lemma generateExtensionsMd_rows_counterexample :
  ~ (forall (this : t) (exts : list IssueReporterExtensionData),
       enabledNonThemeExtesions (getData this) = Some exts ->
       exts <> [] ->
       generateExtensionsMd this
       = Spec.extensionsTable exts (numberOfThemeExtesions (getData this))).
Proof.
  intros H.
  specialize (H Samples.oneExtensionDisabled [Samples.foo] eq_refl).
  assert (N : [Samples.foo] <> []) by discriminate.
  specialize (H N). vm_compute in H. discriminate H.
Qed.

(** C6, amended.  For a record whose [extensionsDisabled] is not true and
    whose [enabledNonThemeExtesions] is present and non-empty, the block is
    the collapsible table: one row per extension in sequence order, each
    row [{name}|{first 3 characters of publisher}|{version}] (characters
    as [substr] counts them, in UTF-16 code units), then the
    suffix [(n theme extensions excluded)] on a line of its own exactly
    when [numberOfThemeExtesions] is truthy. *)
Theorem generateExtensionsMd_rows (this : t)
  (exts : list IssueReporterExtensionData) :
  truthy (extensionsDisabled (getData this)) = false ->
  enabledNonThemeExtesions (getData this) = Some exts ->
  exts <> [] ->
  generateExtensionsMd this
  = Spec.extensionsTable exts (numberOfThemeExtesions (getData this))
  /\ List.length (map Spec.extensionRow exts) = List.length exts
  /\ (forall (i : nat) (e : IssueReporterExtensionData),
        nth_error exts i = Some e ->
        nth_error (map Spec.extensionRow exts) i
        = Some (name e ++ "|" ++ substr (publisher e) 0 3 ++ "|"
                ++ version e))
  /\ (Spec.themeExclusionSuffix (numberOfThemeExtesions (getData this))
      <> ""
      <-> truthy (numberOfThemeExtesions (getData this)) = true).
Proof.
  intros D E _. split; [|split; [|split]].
  - now rewrite (generateExtensionsMd_enabled this D), E.
  - apply length_map.
  - intros i e G. now rewrite nth_error_map, G.
  - apply themeExclusionSuffix_truthy.
Qed.

Lemma generateExtensionsMd_rows_witness :
  (generateExtensionsMd Samples.oneExtension
   = Spec.extensionsTable [Samples.foo] (Some 2%Z))
  /\ includes (generateExtensionsMd Samples.oneExtension)
       (nl ++ "Foo|Pub|0.1" ++ nl) = true
  /\ includes (generateExtensionsMd Samples.oneExtension)
       (nl ++ "(2 theme extensions excluded)" ++ nl) = true
  /\ includes
       (generateExtensionsMd
          (update Samples.oneExtension
             (single F_enabledNonThemeExtesions (Some [Samples.lukasz]))))
       (nl ++ "Tabs|Łuk|2.0" ++ nl) = true.
Proof.
  split; [|split; [|split]; vm_compute; reflexivity].
  apply (generateExtensionsMd_rows Samples.oneExtension [Samples.foo]).
  - reflexivity.
  - reflexivity.
  - discriminate.
Defined.

(** C9.  With [extensionsDisabled] not true, an [enabledNonThemeExtesions]
    that is present and empty gives the collapsible block titled
    [Extensions (0)] with the table header, no row and the suffix where it
    applies; the text [Extensions: none] comes out only for an absent
    list. *)
Theorem generateExtensionsMd_empty_is_not_none (this : t) :
  truthy (extensionsDisabled (getData this)) = false ->
  (enabledNonThemeExtesions (getData this) = Some [] ->
   generateExtensionsMd this
   = "<details><summary>Extensions (0)</summary>" ++ nl
     ++ nl
     ++ "Extension|Author (truncated)|Version" ++ nl
     ++ "---|---|---" ++ nl
     ++ nl
     ++ Spec.themeExclusionSuffix (numberOfThemeExtesions (getData this))
     ++ nl
     ++ nl
     ++ "</details>")
  /\ (generateExtensionsMd this
      = "Extensions: none"
        ++ Spec.themeExclusionSuffix (numberOfThemeExtesions (getData this))
      <-> enabledNonThemeExtesions (getData this) = None).
Proof.
  intros D. rewrite (generateExtensionsMd_enabled this D). split.
  - now intros ->.
  - destruct (enabledNonThemeExtesions (getData this)) as [exts|].
    + split; [|discriminate].
      unfold Spec.extensionsTable. simpl. discriminate.
    + split; reflexivity.
Qed.

Lemma generateExtensionsMd_empty_is_not_none_witness :
  generateExtensionsMd
    (update Samples.oneExtension
       (single F_enabledNonThemeExtesions (Some [])))
  = "<details><summary>Extensions (0)</summary>" ++ nl
    ++ nl
    ++ "Extension|Author (truncated)|Version" ++ nl
    ++ "---|---|---" ++ nl
    ++ nl
    ++ nl ++ "(2 theme extensions excluded)" ++ nl
    ++ nl
    ++ "</details>".
Proof.
  apply (proj1 (generateExtensionsMd_empty_is_not_none
                  (update Samples.oneExtension
                     (single F_enabledNonThemeExtesions (Some [])))
                  eq_refl)).
  reflexivity.
Defined.

End Extensions.

(** ** The serialized report *)

Section Serialize.
Import IssueReporterModel.

(** [serialize] fills the seven slots of the layout. *)
Lemma serialize_report (this : t) :
  serialize this
  = Spec.report (getIssueTypeTitle this)
      (toString (issueDescription (getData this)))
      (getExtensionVersion this)
      (Spec.vscodeVersionText (getData this))
      (Spec.osText (getData this))
      (getRemoteOSes this)
      (getInfos this).
Proof. reflexivity. Qed.

(** A segment that ends its line shows up in the report. *)
Lemma report_includes_extensionVersion
  (title description line vscodeVersion os remoteOSes infos : string) :
  includes
    (Spec.report title description (nl ++ line) vscodeVersion os remoteOSes
       infos)
    (nl ++ line ++ nl) = true.
Proof.
  unfold Spec.report.
  set (tail := "VS Code version: " ++ _).
  replace (nl ++ "Issue Type: <b>" ++ title ++ "</b>" ++ nl ++ nl
           ++ description ++ nl ++ (nl ++ line) ++ nl ++ tail)
    with ((nl ++ "Issue Type: <b>" ++ title ++ "</b>" ++ nl ++ nl
           ++ description ++ nl) ++ (nl ++ line ++ nl) ++ tail).
  - apply includes_middle.
  - now rewrite !append_assoc.
Qed.

(** [getInfos] is the concatenation of the sections its guards let in. *)
Lemma getInfos_blocks (this : t) :
  getInfos this
  = String.concat "" (map (Spec.renderBlock this) (Spec.infoBlocks this)).
Proof.
  unfold getInfos, Spec.infoBlocks, getData.
  assert (A : forall a b c : string, (a ++ b) ++ c = a ++ "" ++ b ++ "" ++ c)
    by (intros; now rewrite append_assoc).
  assert (B : forall a b c d : string,
             ((a ++ b) ++ c) ++ d = a ++ "" ++ b ++ "" ++ c ++ "" ++ d)
    by (intros; now rewrite !append_assoc).
  destruct (issueType (_data this)), (includeSystemInfo (_data this)),
    (systemInfo (_data this)), (includeProcessInfo (_data this)),
    (includeWorkspaceInfo (_data this)),
    (Data.fileOnExtension (_data this)) as [[|]|],
    (includeExtensions (_data this));
    cbn -[generateSystemInfoMd generateProcessInfoMd generateWorkspaceInfoMd
          generateExtensionsMd append];
    cbn [append];
    first [ reflexivity | apply A | apply B ].
Qed.

(** The Process Info block is the collapsible block whose fenced body is the
    interpolated [processInfo]. *)
Lemma generateProcessInfoMd_fenced (this : t) :
  generateProcessInfoMd this
  = Spec.collapsibleFenced "Process Info"
      (toString (processInfo (getData this))).
Proof. reflexivity. Qed.

(** The Workspace Info block is the collapsible block whose fenced body is
    the interpolated [workspaceInfo] followed by a semicolon, never the
    interpolated [workspaceInfo] alone. *)
Lemma generateWorkspaceInfoMd_semicolon (this : t) :
  generateWorkspaceInfoMd this
  = Spec.collapsibleFenced "Workspace Info"
      (toString (workspaceInfo (getData this)) ++ ";")
  /\ generateWorkspaceInfoMd this
     <> Spec.collapsibleFenced "Workspace Info"
          (toString (workspaceInfo (getData this))).
Proof.
  assert (E : generateWorkspaceInfoMd this
              = Spec.collapsibleFenced "Workspace Info"
                  (toString (workspaceInfo (getData this)) ++ ";")).
  { unfold generateWorkspaceInfoMd, Spec.collapsibleFenced, getData.
    now rewrite !append_assoc. }
  split; [exact E|]. rewrite E. unfold Spec.collapsibleFenced.
  set (body := toString (workspaceInfo (getData this))).
  intros H.
  do 9 apply append_inv_head in H.
  rewrite append_assoc in H. apply append_inv_head in H.
  unfold nl in H. cbn in H. discriminate H.
Qed.

(** C1, at the record of the specification's test (a performance issue with
    both dumps switched on and holding [trace-data]).  The Process Info
    block is the collapsible block with fenced body [trace-data] and the
    report contains it; the Workspace Info block has the fenced body
    [trace-data;], and the report contains no Workspace Info block with
    fenced body [trace-data]. *)
Theorem workspaceInfo_fenced_body_has_semicolon :
  issueType (getData Samples.perfTrace) = PerformanceIssue
  /\ includeProcessInfo (getData Samples.perfTrace) = true
  /\ includeWorkspaceInfo (getData Samples.perfTrace) = true
  /\ processInfo (getData Samples.perfTrace) = Some "trace-data"
  /\ workspaceInfo (getData Samples.perfTrace) = Some "trace-data"
  /\ generateProcessInfoMd Samples.perfTrace
     = Spec.collapsibleFenced "Process Info" "trace-data"
  /\ includes (serialize Samples.perfTrace)
       (Spec.collapsibleFenced "Process Info" "trace-data") = true
  /\ generateWorkspaceInfoMd Samples.perfTrace
     = Spec.collapsibleFenced "Workspace Info" "trace-data;"
  /\ generateWorkspaceInfoMd Samples.perfTrace
     <> Spec.collapsibleFenced "Workspace Info" "trace-data"
  /\ includes (serialize Samples.perfTrace)
       (Spec.collapsibleFenced "Workspace Info" "trace-data") = false.
Proof.
  repeat split; try (vm_compute; reflexivity).
  vm_compute. discriminate.
Qed.

(** C2.  The extension-version segment of the report, the slot between the
    description and the [VS Code version:] line, is a newline followed by
    [Extension version: {version}] when [fileOnExtension()] is true and a
    [selectedExtension] is present, and then the report contains that line;
    it is the empty string in every other state, and so it is non-empty
    exactly in the first case.  The report of a bug filed on an extension
    of version [1.2.3] contains the line [Extension version: 1.2.3]; with
    the flag false the report holds no [Extension version] text. *)
Theorem getExtensionVersion_line (this : t) :
  serialize this
  = Spec.report (getIssueTypeTitle this)
      (toString (issueDescription (getData this)))
      (getExtensionVersion this)
      (Spec.vscodeVersionText (getData this))
      (Spec.osText (getData this))
      (getRemoteOSes this)
      (getInfos this)
  /\ (forall e : IssueReporterExtensionData,
        fileOnExtension this = Some true ->
        selectedExtension (getData this) = Some e ->
        getExtensionVersion this
        = nl ++ Spec.extensionVersionLine (version e)
        /\ includes (serialize this)
             (nl ++ Spec.extensionVersionLine (version e) ++ nl) = true)
  /\ (fileOnExtension this <> Some true
      \/ selectedExtension (getData this) = None ->
      getExtensionVersion this = "")
  /\ (getExtensionVersion this <> ""
      <-> fileOnExtension this = Some true
          /\ selectedExtension (getData this) <> None)
  /\ includes (serialize (Samples.bugOnExtension true))
       (nl ++ "Extension version: 1.2.3" ++ nl) = true
  /\ includes (serialize (Samples.bugOnExtension false))
       "Extension version" = false.
Proof.
  split; [reflexivity|].
  assert (P : forall e : IssueReporterExtensionData,
             fileOnExtension this = Some true ->
             selectedExtension (getData this) = Some e ->
             getExtensionVersion this
             = nl ++ Spec.extensionVersionLine (version e)).
  { intros e F S. unfold getExtensionVersion. unfold getData in S.
    now rewrite F, S. }
  assert (Q : fileOnExtension this <> Some true
              \/ selectedExtension (getData this) = None ->
              getExtensionVersion this = "").
  { unfold getExtensionVersion, getData.
    intros [F|S].
    - destruct (fileOnExtension this) as [[|]|];
        [now elim F | reflexivity | reflexivity].
    - rewrite S. now destruct (truthy (fileOnExtension this)). }
  split; [|split; [exact Q|split; [|split; vm_compute; reflexivity]]].
  - intros e F S. split; [now apply P|].
    rewrite serialize_report, (P e F S).
    apply report_includes_extensionVersion.
  - split.
    + intros N.
      destruct (fileOnExtension this) as [[|]|] eqn:F;
        try (elim N; apply Q; left; discriminate).
      split; [reflexivity|]. intros S. elim N. apply Q. now right.
    + intros [F S] E.
      destruct (selectedExtension (getData this)) as [e|] eqn:S';
        [|now elim S].
      rewrite (P e F eq_refl) in E. unfold nl in E. discriminate E.
Qed.

Lemma getExtensionVersion_line_witness :
  getExtensionVersion (Samples.bugOnExtension true)
  = nl ++ "Extension version: 1.2.3"
  /\ getExtensionVersion (Samples.bugOnExtension false) = "".
Proof.
  split.
  - apply (proj1 (proj2 (getExtensionVersion_line
                           (Samples.bugOnExtension true)))
             Samples.ext123).
    + reflexivity.
    + reflexivity.
  - apply (proj1 (proj2 (proj2 (getExtensionVersion_line
                                  (Samples.bugOnExtension false))))).
    left. discriminate.
Defined.

(** C3.  For a feature request no guard of [getInfos] lets a section in:
    the report holds no System Info, Process Info, Workspace Info or
    Extensions block, whatever the include-flags and the other properties
    are; its info slot is empty. *)
Theorem featureRequest_no_info_blocks (this : t) :
  issueType (getData this) = FeatureRequest ->
  getInfos this
  = String.concat "" (map (Spec.renderBlock this) (Spec.infoBlocks this))
  /\ (forall b : Spec.InfoBlock, ~ In b (Spec.infoBlocks this))
  /\ getInfos this = ""
  /\ serialize this
     = Spec.report "Feature Request"
         (toString (issueDescription (getData this)))
         (getExtensionVersion this)
         (Spec.vscodeVersionText (getData this))
         (Spec.osText (getData this))
         (getRemoteOSes this)
         "".
Proof.
  intros E. split; [apply getInfos_blocks|].
  assert (B : Spec.infoBlocks this = []).
  { unfold Spec.infoBlocks. now rewrite E. }
  assert (G : getInfos this = "").
  { now rewrite getInfos_blocks, B. }
  split; [|split].
  - intros b. now rewrite B.
  - exact G.
  - rewrite serialize_report, G. unfold getIssueTypeTitle.
    unfold getData in E. now rewrite E.
Qed.

Lemma featureRequest_no_info_blocks_witness :
  includeSystemInfo (getData Samples.featureRequest) = true
  /\ includeProcessInfo (getData Samples.featureRequest) = true
  /\ includeWorkspaceInfo (getData Samples.featureRequest) = true
  /\ includeExtensions (getData Samples.featureRequest) = true
  /\ systemInfo (getData Samples.featureRequest)
     = Some Samples.remoteSystem
  /\ includes (serialize Samples.featureRequest) "<details>" = false
  /\ includes (serialize Samples.featureRequest) "Extensions" = false
  /\ getInfos Samples.featureRequest = "".
Proof.
  do 5 (split; [reflexivity|]).
  do 2 (split; [vm_compute; reflexivity|]).
  apply (featureRequest_no_info_blocks Samples.featureRequest).
  reflexivity.
Defined.

End Serialize.

(** ** Laws of construction and update *)

Section UpdateLaws.
Import IssueReporterModel Laws.

(** Two records that agree on every property are the same record. *)
Lemma IssueReporterData_ext (d1 d2 : IssueReporterData) :
  (forall f : Field, get f d1 = get f d2) -> d1 = d2.
Proof.
  intros H. destruct d1, d2.
  pose proof (H F_issueType); pose proof (H F_issueDescription);
  pose proof (H F_versionInfo); pose proof (H F_systemInfo);
  pose proof (H F_processInfo); pose proof (H F_workspaceInfo);
  pose proof (H F_includeSystemInfo); pose proof (H F_includeWorkspaceInfo);
  pose proof (H F_includeProcessInfo); pose proof (H F_includeExtensions);
  pose proof (H F_includeSearchedExtensions);
  pose proof (H F_includeSettingsSearchDetails);
  pose proof (H F_numberOfThemeExtesions); pose proof (H F_allExtensions);
  pose proof (H F_enabledNonThemeExtesions);
  pose proof (H F_extensionsDisabled); pose proof (H F_fileOnExtension);
  pose proof (H F_selectedExtension); pose proof (H F_actualSearchResults);
  pose proof (H F_query); pose proof (H F_filterResultCount).
  clear H. cbn in *. subst. reflexivity.
Qed.

Lemma model_ext (m1 m2 : t) :
  (forall f : Field, get f (getData m1) = get f (getData m2)) -> m1 = m2.
Proof.
  destruct m1 as [d1], m2 as [d2]. cbn. intros H.
  f_equal. now apply IssueReporterData_ext.
Qed.

Lemma get_update (this : t) (p : Partial) (f : Field) :
  get f (getData (update this p))
  = match p f with
    | Some v => v
    | None => get f (getData this)
    end.
Proof. apply get_Object_assign. Qed.

Lemma update_merge (this : t) (p q : Partial) :
  update (update this p) q = update this (merge p q).
Proof.
  apply model_ext. intros f. rewrite !get_update. unfold merge.
  now destruct (q f), (p f).
Qed.

(** X1.  Two updates in a row are one update with the merged object, where
    the later update wins on a key both carry: after them a property holds
    the value of the second object if it has the key, else the value of the
    first if it has the key, else its old value. *)
Theorem update_update (this : t) (p q : Partial) :
  update (update this p) q = update this (merge p q)
  /\ (forall f : Field,
        get f (getData (update (update this p) q))
        = match q f with
          | Some v => v
          | None => match p f with
                    | Some v => v
                    | None => get f (getData this)
                    end
          end).
Proof.
  split; [apply update_merge|].
  intros f. now rewrite !get_update.
Qed.

(** X2.  Updating with the empty object changes nothing, and repeating an
    update changes nothing more. *)
Theorem update_empty_idempotent (this : t) (p : Partial) :
  update this empty = this
  /\ update (update this p) p = update this p.
Proof.
  split; apply model_ext; intros f; rewrite !get_update.
  - reflexivity.
  - now destruct (p f).
Qed.

(** X3.  Updates that share no key commute. *)
Theorem update_disjoint_commute (this : t) (p q : Partial) :
  (forall f : Field, p f = None \/ q f = None) ->
  update (update this p) q = update (update this q) p.
Proof.
  intros D. apply model_ext. intros f. rewrite !get_update.
  destruct (D f) as [-> | ->]; now destruct (p f), (q f).
Qed.

Lemma update_disjoint_commute_witness :
  update (update Samples.perfTrace (single F_query (Some "tabs")))
    (single F_issueType Bug)
  = update (update Samples.perfTrace (single F_issueType Bug))
      (single F_query (Some "tabs")).
Proof.
  apply (update_disjoint_commute Samples.perfTrace
           (single F_query (Some "tabs")) (single F_issueType Bug)).
  intros f. destruct f; (left; reflexivity) || (right; reflexivity).
Defined.

(** X4.  Constructing with initial data and then updating is constructing
    with the merged object; constructing with the empty object is
    constructing with no data. *)
Theorem constructor_then_update (p q : Partial) :
  update (constructor (Some p)) q = constructor (Some (merge p q))
  /\ constructor (Some empty) = constructor None
  /\ update (constructor None) q = constructor (Some q).
Proof.
  assert (C : forall r : Partial,
             constructor (Some r) = update (constructor None) r)
    by reflexivity.
  split; [|split].
  - rewrite !C. apply update_merge.
  - rewrite C. apply model_ext. intros f. now rewrite get_update.
  - now rewrite C.
Qed.

End UpdateLaws.

(** ** What the report depends on *)

Section Frame.
Import IssueReporterModel Laws.

(** X5.  The report is a function of fifteen properties: two models that
    agree on the properties [serialize] reads have the same report, whatever
    [allExtensions], [includeSearchedExtensions],
    [includeSettingsSearchDetails], [actualSearchResults], [query] and
    [filterResultCount] hold. *)
Theorem serialize_reads_only (this other : t) :
  (forall f : Field,
     serializeReads f = true ->
     get f (getData this) = get f (getData other)) ->
  serialize this = serialize other.
Proof.
  destruct this as [d1], other as [d2]. destruct d1, d2.
  cbn [getData _data]. intros H.
  pose proof (H F_issueType eq_refl);
  pose proof (H F_issueDescription eq_refl);
  pose proof (H F_versionInfo eq_refl);
  pose proof (H F_systemInfo eq_refl);
  pose proof (H F_processInfo eq_refl);
  pose proof (H F_workspaceInfo eq_refl);
  pose proof (H F_includeSystemInfo eq_refl);
  pose proof (H F_includeWorkspaceInfo eq_refl);
  pose proof (H F_includeProcessInfo eq_refl);
  pose proof (H F_includeExtensions eq_refl);
  pose proof (H F_numberOfThemeExtesions eq_refl);
  pose proof (H F_enabledNonThemeExtesions eq_refl);
  pose proof (H F_extensionsDisabled eq_refl);
  pose proof (H F_fileOnExtension eq_refl);
  pose proof (H F_selectedExtension eq_refl).
  clear H. cbn -[serialize] in *. subst. reflexivity.
Qed.

Lemma serialize_reads_only_witness :
  serialize
    (update Samples.perfTrace
       (with_ (with_ (single F_query (Some "tabs"))
                 F_allExtensions [Samples.foo])
          F_includeSearchedExtensions false))
  = serialize Samples.perfTrace.
Proof.
  apply (serialize_reads_only
           (update Samples.perfTrace
              (with_ (with_ (single F_query (Some "tabs"))
                        F_allExtensions [Samples.foo])
                 F_includeSearchedExtensions false))
           Samples.perfTrace).
  intros f R. destruct f; try discriminate R; reflexivity.
Defined.

(** X6.  With [includeProcessInfo] false, or for an issue that is not a
    performance issue, the report does not depend on [processInfo]. *)
Theorem processInfo_opt_out (this : t) (v : option string) :
  includeProcessInfo (getData this) = false
  \/ issueType (getData this) <> PerformanceIssue ->
  serialize (update this (single F_processInfo v)) = serialize this.
Proof.
  destruct this as [d]. destruct d.
  cbn [getData _data Data.includeProcessInfo Data.issueType].
  intros [-> | N].
  - reflexivity.
  - destruct issueType0; [reflexivity | now elim N | reflexivity].
Qed.

Lemma processInfo_opt_out_witness :
  serialize
    (update (update Samples.perfTrace (single F_includeProcessInfo false))
       (single F_processInfo (Some "other dump")))
  = serialize (update Samples.perfTrace (single F_includeProcessInfo false)).
Proof.
  apply (processInfo_opt_out
           (update Samples.perfTrace (single F_includeProcessInfo false))
           (Some "other dump")).
  left. reflexivity.
Defined.

(** X7.  With [includeWorkspaceInfo] false, or for an issue that is not a
    performance issue, the report does not depend on [workspaceInfo]. *)
Theorem workspaceInfo_opt_out (this : t) (v : option string) :
  includeWorkspaceInfo (getData this) = false
  \/ issueType (getData this) <> PerformanceIssue ->
  serialize (update this (single F_workspaceInfo v)) = serialize this.
Proof.
  destruct this as [d]. destruct d.
  cbn [getData _data Data.includeWorkspaceInfo Data.issueType].
  intros [-> | N].
  - reflexivity.
  - destruct issueType0; [reflexivity | now elim N | reflexivity].
Qed.

Lemma workspaceInfo_opt_out_witness :
  serialize
    (update (update Samples.perfTrace (single F_issueType Bug))
       (single F_workspaceInfo (Some "other dump")))
  = serialize (update Samples.perfTrace (single F_issueType Bug)).
Proof.
  apply (workspaceInfo_opt_out
           (update Samples.perfTrace (single F_issueType Bug))
           (Some "other dump")).
  right. discriminate.
Defined.

(** X8.  With [includeExtensions] false, or with a truthy [fileOnExtension]
    flag, or for a feature request, the report does not depend on the
    extension listing ([enabledNonThemeExtesions],
    [numberOfThemeExtesions], [extensionsDisabled]). *)
Theorem extensions_opt_out (this : t)
  (exts : option (list IssueReporterExtensionData)) (n : option Z)
  (disabled : option bool) :
  includeExtensions (getData this) = false
  \/ truthy (Data.fileOnExtension (getData this)) = true
  \/ issueType (getData this) = FeatureRequest ->
  serialize
    (update this
       (with_ (with_ (single F_enabledNonThemeExtesions exts)
                 F_numberOfThemeExtesions n)
          F_extensionsDisabled disabled))
  = serialize this.
Proof.
  destruct this as [d]. destruct d.
  cbn [getData _data Data.includeExtensions Data.fileOnExtension
       Data.issueType].
  intros [-> | [F | ->]].
  - destruct issueType0, fileOnExtension0 as [[|]|]; reflexivity.
  - destruct fileOnExtension0 as [[|]|]; try discriminate F.
    destruct issueType0; reflexivity.
  - reflexivity.
Qed.

Lemma extensions_opt_out_witness :
  serialize
    (update (Samples.bugOnExtension true)
       (with_ (with_ (single F_enabledNonThemeExtesions (Some [Samples.foo]))
                 F_numberOfThemeExtesions (Some 2%Z))
          F_extensionsDisabled (Some true)))
  = serialize (Samples.bugOnExtension true).
Proof.
  apply (extensions_opt_out (Samples.bugOnExtension true)
           (Some [Samples.foo]) (Some 2%Z) (Some true)).
  right. left. reflexivity.
Defined.

(** X9.  With [includeSystemInfo] false, or for a feature request, the info
    sections do not depend on [systemInfo]. *)
Theorem systemInfo_opt_out (this : t) (v : option SystemInfo) :
  includeSystemInfo (getData this) = false
  \/ issueType (getData this) = FeatureRequest ->
  getInfos (update this (single F_systemInfo v)) = getInfos this.
Proof.
  destruct this as [d]. destruct d.
  cbn [getData _data Data.includeSystemInfo Data.issueType].
  intros [-> | ->].
  - destruct issueType0; reflexivity.
  - reflexivity.
Qed.

Lemma systemInfo_opt_out_witness :
  getInfos
    (update (update Samples.withRemotes (single F_includeSystemInfo false))
       (single F_systemInfo None))
  = getInfos (update Samples.withRemotes (single F_includeSystemInfo false)).
Proof.
  apply (systemInfo_opt_out
           (update Samples.withRemotes (single F_includeSystemInfo false))
           None).
  left. reflexivity.
Defined.

(** X10.  In the report an optional flag that is [false] reads like an
    absent one, and a theme count of zero reads like an absent count. *)
Theorem serialize_falsy_is_absent (this : t) :
  serialize (update this (single F_fileOnExtension (Some false)))
  = serialize (update this (single F_fileOnExtension None))
  /\ serialize (update this (single F_extensionsDisabled (Some false)))
     = serialize (update this (single F_extensionsDisabled None))
  /\ serialize (update this (single F_numberOfThemeExtesions (Some 0%Z)))
     = serialize (update this (single F_numberOfThemeExtesions None)).
Proof.
  destruct this as [d]. destruct d.
  repeat split; destruct issueType0; reflexivity.
Qed.

End Frame.

(** ** The shape of the report *)

Section Shape.
Import IssueReporterModel Laws.

Lemma prefix_append_r (n a b : string) :
  String.prefix n a = true -> String.prefix n (a ++ b) = true.
Proof.
  revert n. induction a as [|x a IH]; intros n H.
  - destruct n; [|discriminate H]. now destruct b.
  - destruct n as [|y n]; [reflexivity|]. cbn in H |- *.
    destruct (ascii_dec y x); [now apply IH | discriminate H].
Qed.

Lemma includes_append_r (a b n : string) :
  includes a n = true -> includes (a ++ b) n = true.
Proof.
  induction a as [|x a IH]; intros H.
  - rewrite includes_unfold in H. rewrite orb_false_r in H.
    rewrite includes_unfold. now rewrite (prefix_append_r n "" b H).
  - rewrite includes_unfold in H. apply orb_true_iff in H.
    rewrite includes_unfold. apply orb_true_iff. destruct H as [H|H].
    + left. now apply prefix_append_r.
    + right. now apply IH.
Qed.

Lemma endsWith_unfold (s p : string) :
  endsWith s p
  = String.eqb s p
    || match s with
       | EmptyString => false
       | String _ s' => endsWith s' p
       end.
Proof. destruct s; reflexivity. Qed.

Lemma endsWith_append (a b : string) : endsWith (a ++ b) b = true.
Proof.
  induction a as [|x a IH].
  - cbn. rewrite endsWith_unfold, String.eqb_refl. reflexivity.
  - cbn [append]. rewrite endsWith_unfold, IH. apply orb_true_r.
Qed.

Lemma concat_empty_cons (x : string) (l : list string) :
  String.concat "" (x :: l) = x ++ String.concat "" l.
Proof.
  destruct l; cbn; [now rewrite append_nil_r | reflexivity].
Qed.

Lemma includes_concat_In (l : list string) (x : string) :
  In x l -> includes (String.concat "" l) x = true.
Proof.
  induction l as [|y l IH]; intros H; [now elim H|].
  rewrite concat_empty_cons. destruct H as [-> | H].
  - apply includes_head.
  - now apply includes_append_l, IH.
Qed.

(** The accumulation of the [forEach] loop is the accumulator followed by
    the contributions of the entries, in order. *)
Lemma fold_left_append (A : Type) (f : A -> string) (l : list A)
  (md : string) :
  fold_left (fun md a => md ++ f a) l md
  = md ++ String.concat "" (map f l).
Proof.
  revert md. induction l as [|a l IH]; intros md.
  - cbn. now rewrite append_nil_r.
  - cbn [fold_left map]. now rewrite IH, concat_empty_cons, append_assoc.
Qed.

(** The remote-OS segment with every line ended by its newline, also for
    no entry at all. *)
Lemma getRemoteOSes_terminated (this : t) (systemInfo0 : SystemInfo) :
  systemInfo (getData this) = Some systemInfo0 ->
  getRemoteOSes this
  = String.concat ""
      (map (fun remote => Spec.remoteOSLine remote ++ nl)
         (remoteData systemInfo0)).
Proof.
  unfold getRemoteOSes, getData. intros ->.
  destruct (remoteData systemInfo0) as [|r l] eqn:E; [reflexivity|].
  change (truthy (List.length (r :: l))) with true. cbv iota.
  rewrite <- map_map with (f := Spec.remoteOSLine)
                          (g := fun s : string => s ++ nl).
  rewrite <- join_nl_terminated by discriminate. reflexivity.
Qed.

(** Lines that each end with a newline, put after a newline: every one of
    them stands on a line of its own. *)
Lemma includes_line_In (l : list string) (x : string) :
  In x l ->
  includes (nl ++ String.concat "" (map (fun s => s ++ nl) l))
    (nl ++ x ++ nl) = true.
Proof.
  induction l as [|y l IH]; intros H; [now elim H|].
  cbn [map]. rewrite concat_empty_cons. destruct H as [-> | H].
  - rewrite <- !append_assoc. apply includes_head.
  - replace (nl ++ (y ++ nl) ++ String.concat "" (map (fun s => s ++ nl) l))
      with ((nl ++ y)
            ++ nl ++ String.concat "" (map (fun s => s ++ nl) l))
      by now rewrite !append_assoc.
    now apply includes_append_l, IH.
Qed.

(** X11.  The report always carries the two version lines, one after the
    other; an absent [versionInfo] prints as [undefined] on both. *)
Theorem serialize_version_lines (this : t) :
  (versionInfo (getData this) = None ->
   includes (serialize this)
     (nl ++ "VS Code version: undefined" ++ nl
      ++ "OS version: undefined" ++ nl) = true)
  /\ (forall (versionInfo0 : VersionInfo) (v o : string),
        versionInfo (getData this) = Some versionInfo0 ->
        vscodeVersion versionInfo0 = Some v ->
        os versionInfo0 = Some o ->
        includes (serialize this)
          (nl ++ "VS Code version: " ++ v ++ nl
           ++ "OS version: " ++ o ++ nl) = true).
Proof.
  assert (G : forall v o : string,
             Spec.vscodeVersionText (getData this) = v ->
             Spec.osText (getData this) = o ->
             includes (serialize this)
               (nl ++ "VS Code version: " ++ v ++ nl
                ++ "OS version: " ++ o ++ nl) = true).
  { intros v o <- <-. rewrite serialize_report. unfold Spec.report.
    set (rest := getRemoteOSes this ++ _).
    set (V := Spec.vscodeVersionText (getData this)).
    set (O := Spec.osText (getData this)).
    replace (nl ++ "Issue Type: <b>" ++ getIssueTypeTitle this ++ "</b>"
             ++ nl ++ nl ++ toString (issueDescription (getData this))
             ++ nl ++ getExtensionVersion this ++ nl
             ++ "VS Code version: " ++ V ++ nl ++ "OS version: " ++ O
             ++ nl ++ rest)
      with ((nl ++ "Issue Type: <b>" ++ getIssueTypeTitle this ++ "</b>"
             ++ nl ++ nl ++ toString (issueDescription (getData this))
             ++ nl ++ getExtensionVersion this)
            ++ (nl ++ "VS Code version: " ++ V ++ nl ++ "OS version: "
                ++ O ++ nl) ++ rest)
      by now rewrite !append_assoc.
    apply includes_middle. }
  split.
  - intros E.
    apply (G "undefined" "undefined");
      unfold Spec.vscodeVersionText, Spec.osText; now rewrite E.
  - intros vi v o E V O.
    apply (G v o); unfold Spec.vscodeVersionText, Spec.osText;
      rewrite E; [now rewrite V | now rewrite O].
Qed.

Lemma serialize_version_lines_witness :
  includes (serialize Samples.perfTrace)
    (nl ++ "VS Code version: undefined" ++ nl
     ++ "OS version: undefined" ++ nl) = true
  /\ includes
       (serialize
          (update Samples.perfTrace
             (single F_versionInfo
                (Some {| vscodeVersion := Some "1.50.0";
                         os := Some "Linux x64" |}))))
       (nl ++ "VS Code version: 1.50.0" ++ nl
        ++ "OS version: Linux x64" ++ nl) = true.
Proof.
  split.
  - apply (proj1 (serialize_version_lines Samples.perfTrace)).
    reflexivity.
  - apply (proj2 (serialize_version_lines
                    (update Samples.perfTrace
                       (single F_versionInfo
                          (Some {| vscodeVersion := Some "1.50.0";
                                   os := Some "Linux x64" |}))))
             {| vscodeVersion := Some "1.50.0"; os := Some "Linux x64" |}
             "1.50.0" "Linux x64"); reflexivity.
Defined.

(** X12.  Every remote entry of [systemInfo] has its remote-OS line in the
    report, on a line of its own, whatever the issue type and the
    include-flags are ([includeSystemInfo] does not switch these lines
    off). *)
Theorem serialize_remote_lines (this : t) (systemInfo0 : SystemInfo)
  (remote : RemoteData) :
  systemInfo (getData this) = Some systemInfo0 ->
  In remote (remoteData systemInfo0) ->
  includes (serialize this) (nl ++ Spec.remoteOSLine remote ++ nl) = true.
Proof.
  intros E I.
  rewrite serialize_report, (getRemoteOSes_terminated this systemInfo0 E).
  unfold Spec.report.
  set (R := String.concat "" _).
  set (rest := nl ++ getInfos this ++ _).
  replace (nl ++ "Issue Type: <b>" ++ getIssueTypeTitle this ++ "</b>"
           ++ nl ++ nl ++ toString (issueDescription (getData this))
           ++ nl ++ getExtensionVersion this ++ nl
           ++ "VS Code version: " ++ Spec.vscodeVersionText (getData this)
           ++ nl ++ "OS version: " ++ Spec.osText (getData this)
           ++ nl ++ R ++ rest)
    with ((nl ++ "Issue Type: <b>" ++ getIssueTypeTitle this ++ "</b>"
           ++ nl ++ nl ++ toString (issueDescription (getData this))
           ++ nl ++ getExtensionVersion this ++ nl
           ++ "VS Code version: " ++ Spec.vscodeVersionText (getData this)
           ++ nl ++ "OS version: " ++ Spec.osText (getData this))
          ++ (nl ++ R) ++ rest)
    by now rewrite !append_assoc.
  apply includes_append_l, includes_append_r.
  unfold R.
  rewrite <- map_map with (f := Spec.remoteOSLine)
                          (g := fun s : string => s ++ nl).
  apply includes_line_In. now apply in_map.
Qed.

Lemma serialize_remote_lines_witness :
  includeSystemInfo
    (getData (update Samples.featureRequest
                (single F_includeSystemInfo false))) = false
  /\ includes
       (serialize (update Samples.featureRequest
                     (single F_includeSystemInfo false)))
       (nl ++ "Remote OS version: Linux x64" ++ nl) = true.
Proof.
  split; [reflexivity|].
  apply (serialize_remote_lines
           (update Samples.featureRequest (single F_includeSystemInfo false))
           Samples.remoteSystem
           (RemoteDiagnosticInfo "host-a"
              {| mi_os := "Linux x64"; mi_cpus := "4"; mi_memory := "8GB";
                 mi_vmHint := "0%" |})).
  - reflexivity.
  - left. reflexivity.
Defined.

End Shape.

(** ** Text as UTF-16 code units *)

Section Codec.
Local Open Scope N_scope.

Lemma byte_of_N (n : N) : n < 256 -> byteOf (ascii_of_N n) = n.
Proof. apply N_ascii_embedding. Qed.

Lemma byte_bound (c : ascii) : byteOf c < 256.
Proof. apply N_ascii_bounded. Qed.

(** One step of [toCodeUnits]. *)
Lemma toCodeUnits_cons (c0 : ascii) (s1 : string) :
  toCodeUnits (String c0 s1)
  = if byteOf c0 <? 0x80 then byteOf c0 :: toCodeUnits s1
    else
      match s1 with
      | String c1 s2 =>
          if (0xC0 <=? byteOf c0) && (byteOf c0 <? 0xE0) && isCont c1 then
            ((byteOf c0 - 0xC0) * 0x40 + (byteOf c1 - 0x80)) :: toCodeUnits s2
          else
            match s2 with
            | String c2 s3 =>
                if (0xE0 <=? byteOf c0) && (byteOf c0 <? 0xF0) && isCont c1
                   && isCont c2
                then
                  ((byteOf c0 - 0xE0) * 0x1000 + (byteOf c1 - 0x80) * 0x40
                   + (byteOf c2 - 0x80)) :: toCodeUnits s3
                else
                  match s3 with
                  | String c3 s4 =>
                      if (0xF0 <=? byteOf c0) && isCont c1 && isCont c2
                         && isCont c3
                         && ((0x10000 <=?
                              (byteOf c0 - 0xF0) * 0x40000
                              + (byteOf c1 - 0x80) * 0x1000
                              + (byteOf c2 - 0x80) * 0x40 + (byteOf c3 - 0x80))
                             && ((byteOf c0 - 0xF0) * 0x40000
                                 + (byteOf c1 - 0x80) * 0x1000
                                 + (byteOf c2 - 0x80) * 0x40 + (byteOf c3 - 0x80)
                                 <? 0x110000))
                      then
                        (0xD800
                         + ((byteOf c0 - 0xF0) * 0x40000
                            + (byteOf c1 - 0x80) * 0x1000
                            + (byteOf c2 - 0x80) * 0x40 + (byteOf c3 - 0x80)
                            - 0x10000) / 0x400)
                        :: (0xDC00
                            + ((byteOf c0 - 0xF0) * 0x40000
                               + (byteOf c1 - 0x80) * 0x1000
                               + (byteOf c2 - 0x80) * 0x40 + (byteOf c3 - 0x80)
                               - 0x10000) mod 0x400)
                        :: toCodeUnits s4
                      else 0xFFFD :: toCodeUnits s1
                  | EmptyString => 0xFFFD :: toCodeUnits s1
                  end
            | EmptyString => 0xFFFD :: toCodeUnits s1
            end
      | EmptyString => [0xFFFD]
      end.
Proof. reflexivity. Qed.

(** A number in base 64: its last digit and the rest. *)
Lemma digits64 (n : N) :
  n = 0x40 * (n / 0x40) + n mod 0x40 /\ n mod 0x40 < 0x40.
Proof.
  split; [apply N.div_mod' | apply N.mod_lt; discriminate].
Qed.

Lemma div_0x1000 (n : N) : n / 0x1000 = n / 0x40 / 0x40.
Proof. now rewrite N.Div0.div_div. Qed.

Lemma div_0x40000 (n : N) : n / 0x40000 = n / 0x40 / 0x40 / 0x40.
Proof. now rewrite !N.Div0.div_div. Qed.

(** The tests on the bytes of a character, once the bytes are numbers. *)
Ltac decide_tests :=
  repeat match goal with
         | |- context [?a <? ?b] =>
             first [ replace (a <? b) with true
                       by (symmetry; apply N.ltb_lt; lia)
                   | replace (a <? b) with false
                       by (symmetry; apply N.ltb_ge; lia) ]
         | |- context [?a <=? ?b] =>
             first [ replace (a <=? b) with true
                       by (symmetry; apply N.leb_le; lia)
                   | replace (a <=? b) with false
                       by (symmetry; apply N.leb_gt; lia) ]
         end.

Lemma isCont_of_N (n : N) : n < 64 -> isCont (ascii_of_N (0x80 + n)) = true.
Proof.
  intros B. unfold isCont. rewrite byte_of_N by lia.
  apply andb_true_intro. split; [apply N.leb_le | apply N.ltb_lt]; lia.
Qed.

Lemma toCodeUnits_utf8 (u : N) (rest : string) :
  u < 0x10000 ->
  toCodeUnits (utf8 u ++ rest) = u :: toCodeUnits rest.
Proof.
  intros B. unfold utf8.
  destruct (u <? 0x80) eqn:E1; [|destruct (u <? 0x800) eqn:E2;
    [|destruct (u <? 0x10000) eqn:E3]].
  - apply N.ltb_lt in E1. cbn [append]. rewrite toCodeUnits_cons.
    rewrite byte_of_N by lia. now rewrite (proj2 (N.ltb_lt _ _) E1).
  - apply N.ltb_ge in E1. apply N.ltb_lt in E2.
    destruct (digits64 u) as [U0 D0].
    set (d := u mod 0x40) in *. set (q := u / 0x40) in *.
    clearbody d q.
    cbn [append]. rewrite toCodeUnits_cons. cbv beta iota.
    rewrite isCont_of_N by lia. rewrite !byte_of_N by lia.
    decide_tests. cbn [andb]. f_equal. lia.
  - apply N.ltb_ge in E1, E2. apply N.ltb_lt in E3.
    rewrite div_0x1000.
    destruct (digits64 u) as [U0 D0].
    destruct (digits64 (u / 0x40)) as [U1 D1].
    set (d := u mod 0x40) in *. set (q := u / 0x40) in *.
    set (c := q mod 0x40) in *. set (q1 := q / 0x40) in *.
    clearbody d q c q1.
    cbn [append]. rewrite toCodeUnits_cons. cbv beta iota.
    rewrite !isCont_of_N by lia. rewrite !byte_of_N by lia.
    decide_tests. cbn [andb]. f_equal. lia.
  - apply N.ltb_ge in E3. lia.
Qed.

Lemma toCodeUnits_utf8_pair (cp : N) (rest : string) :
  0x10000 <= cp < 0x110000 ->
  toCodeUnits (utf8 cp ++ rest)
  = (0xD800 + (cp - 0x10000) / 0x400)
    :: (0xDC00 + (cp - 0x10000) mod 0x400) :: toCodeUnits rest.
Proof.
  intros [L H]. unfold utf8. decide_tests.
  rewrite div_0x1000, div_0x40000.
  destruct (digits64 cp) as [U0 D0].
  destruct (digits64 (cp / 0x40)) as [U1 D1].
  destruct (digits64 (cp / 0x40 / 0x40)) as [U2 D2].
  set (d := cp mod 0x40) in *. set (q := cp / 0x40) in *.
  set (c := q mod 0x40) in *. set (q1 := q / 0x40) in *.
  set (b := q1 mod 0x40) in *. set (q2 := q1 / 0x40) in *.
  clearbody d q c q1 b q2.
  cbn [append]. rewrite toCodeUnits_cons. cbv beta iota.
  rewrite !isCont_of_N by lia. rewrite !byte_of_N by lia.
  replace ((0xF0 + q2 - 0xF0) * 0x40000 + (0x80 + b - 0x80) * 0x1000
           + (0x80 + c - 0x80) * 0x40 + (0x80 + d - 0x80)) with cp by lia.
  decide_tests. cbn [andb]. reflexivity.
Qed.

Lemma fromCodeUnits_cons2 (u v : N) (l2 : list N) :
  fromCodeUnits (u :: v :: l2)
  = if isHigh u && isLow v then
      utf8 (0x10000 + (u - 0xD800) * 0x400 + (v - 0xDC00))
      ++ fromCodeUnits l2
    else utf8 u ++ fromCodeUnits (v :: l2).
Proof. reflexivity. Qed.

(** The two halves of a pair, read back from its code point. *)
Lemma pair_halves (x y : N) :
  y < 0x400 ->
  (x * 0x400 + y) / 0x400 = x /\ (x * 0x400 + y) mod 0x400 = y.
Proof.
  intros B. split.
  - rewrite N.div_add_l by discriminate. rewrite N.div_small by exact B.
    apply N.add_0_r.
  - rewrite N.add_comm, N.Div0.mod_add. now apply N.mod_small.
Qed.

(** Reading the code units of the text of a sequence of code units gives
    the sequence back. *)
Lemma toCodeUnits_fromCodeUnits (l : list N) :
  Forall (fun u => u < 0x10000) l -> toCodeUnits (fromCodeUnits l) = l.
Proof.
  assert (G : forall (n : nat) (l : list N),
             (List.length l <= n)%nat ->
             Forall (fun u => u < 0x10000) l ->
             toCodeUnits (fromCodeUnits l) = l).
  { induction n as [|n IH]; intros l0 Ln F.
    - destruct l0; [reflexivity | cbn in Ln; lia].
    - destruct l0 as [|u [|v l2]]; [reflexivity | | ].
      + inversion F; subst. cbn [fromCodeUnits].
        rewrite <- (append_nil_r (utf8 u)).
        now rewrite toCodeUnits_utf8.
      + inversion F as [|? ? Bu F1]; subst.
        inversion F1 as [|? ? Bv F2]; subst.
        rewrite fromCodeUnits_cons2.
        destruct (isHigh u && isLow v) eqn:P.
        * apply andb_prop in P. destruct P as [Hu Hv].
          unfold isHigh in Hu. unfold isLow in Hv.
          apply andb_prop in Hu, Hv.
          destruct Hu as [Hu1 Hu2], Hv as [Hv1 Hv2].
          apply N.leb_le in Hu1, Hv1. apply N.ltb_lt in Hu2, Hv2.
          rewrite toCodeUnits_utf8_pair by lia.
          rewrite (IH l2) by (assumption || (cbn in Ln |- *; lia)).
          replace (0x10000 + (u - 0xD800) * 0x400 + (v - 0xDC00) - 0x10000)
            with ((u - 0xD800) * 0x400 + (v - 0xDC00)) by lia.
          destruct (pair_halves (u - 0xD800) (v - 0xDC00)) as [-> ->];
            [lia|].
          f_equal; [lia|]. f_equal. lia.
        * rewrite toCodeUnits_utf8 by assumption.
          rewrite (IH (v :: l2)) by (assumption || (cbn in Ln |- *; lia)).
          reflexivity. }
  intros F. now apply (G (List.length l)).
Qed.

Ltac split_tests :=
  repeat match goal with
         | H : _ && _ = true |- _ => apply andb_prop in H; destruct H
         | H : isCont _ = true |- _ => unfold isCont in H
         | H : (_ <=? _) = true |- _ => apply N.leb_le in H
         | H : (_ <? _) = true |- _ => apply N.ltb_lt in H
         end.

(** Every code unit of a text has sixteen bits. *)
Lemma toCodeUnits_bound (s : string) :
  Forall (fun u => u < 0x10000) (toCodeUnits s).
Proof.
  assert (G : forall (n : nat) (s : string),
             (String.length s <= n)%nat ->
             Forall (fun u => u < 0x10000) (toCodeUnits s)).
  { induction n as [|n IH]; intros s0 L.
    - destruct s0; [constructor | cbn in L; lia].
    - destruct s0 as [|c0 s1]; [constructor|].
      assert (T1 : Forall (fun u => u < 0x10000) (toCodeUnits s1))
        by (apply IH; cbn in L; lia).
      rewrite toCodeUnits_cons.
      pose proof (byte_bound c0) as B0.
      destruct (byteOf c0 <? 0x80) eqn:E; [constructor; [lia | exact T1]|].
      destruct s1 as [|c1 s2]; [repeat constructor|].
      pose proof (byte_bound c1) as B1.
      assert (T2 : Forall (fun u => u < 0x10000) (toCodeUnits s2))
        by (apply IH; cbn in L; lia).
      match goal with
      | |- context [if ?c then _ else _] => destruct c eqn:C2
      end.
      { split_tests. constructor; [lia | exact T2]. }
      destruct s2 as [|c2 s3]; [constructor; [reflexivity | exact T1]|].
      pose proof (byte_bound c2) as B2.
      assert (T3 : Forall (fun u => u < 0x10000) (toCodeUnits s3))
        by (apply IH; cbn in L; lia).
      match goal with
      | |- context [if ?c then _ else _] => destruct c eqn:C3
      end.
      { split_tests. constructor; [lia | exact T3]. }
      destruct s3 as [|c3 s4]; [constructor; [reflexivity | exact T1]|].
      pose proof (byte_bound c3) as B3.
      assert (T4 : Forall (fun u => u < 0x10000) (toCodeUnits s4))
        by (apply IH; cbn in L; lia).
      match goal with
      | |- context [if ?c then _ else _] => destruct c eqn:C4
      end.
      { split_tests.
        match goal with
        | |- context [(?cp - 0x10000) / 0x400] =>
            assert (Q : (cp - 0x10000) / 0x400 < 0x400)
              by (apply N.Div0.div_lt_upper_bound; lia);
            assert (R : (cp - 0x10000) mod 0x400 < 0x400)
              by (apply N.mod_lt; discriminate);
            set (hi := (cp - 0x10000) / 0x400) in *;
            set (lo := (cp - 0x10000) mod 0x400) in *;
            clearbody hi lo
        end.
        constructor; [lia|]. constructor; [lia | exact T4]. }
      constructor; [reflexivity | exact T1]. }
  now apply (G (String.length s)).
Qed.

Lemma Forall_firstn (A : Type) (P : A -> Prop) (n : nat) (l : list A) :
  Forall P l -> Forall P (firstn n l).
Proof.
  revert l. induction n as [|n IH]; intros l F; [constructor|].
  destruct F; [constructor | constructor; auto].
Qed.

Lemma Forall_skipn (A : Type) (P : A -> Prop) (n : nat) (l : list A) :
  Forall P l -> Forall P (skipn n l).
Proof.
  revert l. induction n as [|n IH]; intros l F; [exact F|].
  destruct F; [constructor | cbn; auto].
Qed.

(** [substr] gives at most as many code units as it is asked for. *)
Lemma String_length_substr (s : string) (start len : nat) :
  (String_length (substr s start len) <= len)%nat.
Proof.
  unfold String_length, substr.
  rewrite toCodeUnits_fromCodeUnits
    by apply Forall_firstn, Forall_skipn, toCodeUnits_bound.
  rewrite length_firstn. lia.
Qed.

(** A text that is short enough is cut nowhere. *)
Lemma substr_whole (s : string) (len : nat) :
  wellFormed s = true -> (String_length s <= len)%nat -> substr s 0 len = s.
Proof.
  unfold wellFormed, String_length, substr. intros W L.
  apply String.eqb_eq in W. cbn [skipn].
  now rewrite firstn_all2.
Qed.

(** [substr] on plain, accented and astral text: a character outside the
    basic plane counts for two code units. *)
Lemma substr_examples :
  substr "PublisherName" 0 3 = "Pub"
  /\ substr "ab" 0 3 = "ab"
  /\ substr "Łukasz" 0 3 = "Łuk"
  /\ substr "a😀b" 0 3 = "a😀"
  /\ String_length "😀" = 2%nat
  /\ String_length "Łukasz" = 6%nat.
Proof. repeat split. Qed.

End Codec.

(** ** The sections of the report *)

Section Sections.
Import IssueReporterModel Laws.

(** X13.  The report opens with the issue-type line and closes with the
    generated-by marker on a line of its own; the three issue types have
    three different titles. *)
Theorem serialize_frame (this : t) :
  startsWith (serialize this)
    (nl ++ "Issue Type: <b>" ++ getIssueTypeTitle this ++ "</b>" ++ nl)
  = true
  /\ endsWith (serialize this) (nl ++ generatedMarker) = true
  /\ (forall other : t,
        getIssueTypeTitle this = getIssueTypeTitle other
        <-> issueType (getData this) = issueType (getData other)).
Proof.
  split; [|split].
  - unfold startsWith, serialize.
    set (rest := nl ++ toString (issueDescription (_data this)) ++ _).
    replace (nl ++ "Issue Type: <b>" ++ getIssueTypeTitle this ++ "</b>"
             ++ nl ++ rest)
      with ((nl ++ "Issue Type: <b>" ++ getIssueTypeTitle this ++ "</b>"
             ++ nl) ++ rest)
      by now rewrite !append_assoc.
    apply prefix_append.
  - unfold serialize, generatedMarker.
    rewrite <- !append_assoc. rewrite append_assoc.
    apply endsWith_append.
  - intros other. unfold getIssueTypeTitle, getData.
    destruct (issueType (_data this)), (issueType (_data other)); cbn;
      split; intros H; (reflexivity || discriminate H).
Qed.

Lemma serialize_frame_witness :
  getIssueTypeTitle Samples.perfTrace
  <> getIssueTypeTitle Samples.featureRequest.
Proof.
  intros H.
  apply (proj1 (proj2 (proj2 (serialize_frame Samples.perfTrace))
                  Samples.featureRequest)) in H.
  discriminate H.
Defined.

(** Four guarded sections in a row: the list is in rank order, and a
    section is in it exactly when its guard holds. *)
Lemma guarded_blocks (c1 c2 c3 c4 : bool) :
  let l := ((if c1 then [Spec.SystemInfoBlock] else [])
            ++ (if c2 then [Spec.ProcessInfoBlock] else [])
            ++ (if c3 then [Spec.WorkspaceInfoBlock] else [])
            ++ (if c4 then [Spec.ExtensionsBlock] else []))%list in
  StronglySorted (fun a b => blockRank a < blockRank b) l
  /\ (In Spec.SystemInfoBlock l <-> c1 = true)
  /\ (In Spec.ProcessInfoBlock l <-> c2 = true)
  /\ (In Spec.WorkspaceInfoBlock l <-> c3 = true)
  /\ (In Spec.ExtensionsBlock l <-> c4 = true).
Proof.
  destruct c1, c2, c3, c4; cbn;
    (split; [repeat constructor; cbn; lia|]);
    repeat split; intros;
    repeat match goal with
           | H : _ \/ _ |- _ => destruct H
           | H : False |- _ => elim H
           end;
    try discriminate; auto 6.
Qed.

(** A guard written with booleans against the same guard written with
    propositions, once every variable of the guard is a value. *)
Ltac settle_guard :=
  cbn; split; intros H;
  [ try discriminate H; repeat split; try reflexivity; try discriminate
  | repeat match goal with
           | K : _ /\ _ |- _ => destruct K
           end;
    try reflexivity; try discriminate; try congruence ].

(** X14.  The info sections come in the fixed order System Info, Process
    Info, Workspace Info, Extensions, each at most once.  The Process Info
    and Workspace Info sections are there exactly for a performance issue
    with the matching include-flag; the System Info section exactly for a
    bug or a performance issue with [includeSystemInfo] and a [systemInfo];
    the Extensions section exactly for a bug or a performance issue with
    [includeExtensions] and no truthy [fileOnExtension] flag. *)
Theorem infoBlocks_order (this : t) :
  getInfos this
  = String.concat "" (map (Spec.renderBlock this) (Spec.infoBlocks this))
  /\ StronglySorted (fun a b => blockRank a < blockRank b)
       (Spec.infoBlocks this)
  /\ (In Spec.SystemInfoBlock (Spec.infoBlocks this)
      <-> issueType (getData this) <> FeatureRequest
          /\ includeSystemInfo (getData this) = true
          /\ systemInfo (getData this) <> None)
  /\ (In Spec.ProcessInfoBlock (Spec.infoBlocks this)
      <-> issueType (getData this) = PerformanceIssue
          /\ includeProcessInfo (getData this) = true)
  /\ (In Spec.WorkspaceInfoBlock (Spec.infoBlocks this)
      <-> issueType (getData this) = PerformanceIssue
          /\ includeWorkspaceInfo (getData this) = true)
  /\ (In Spec.ExtensionsBlock (Spec.infoBlocks this)
      <-> issueType (getData this) <> FeatureRequest
          /\ includeExtensions (getData this) = true
          /\ truthy (Data.fileOnExtension (getData this)) = false).
Proof.
  split; [apply getInfos_blocks|].
  unfold Spec.infoBlocks. cbv zeta.
  match goal with
  | |- context [((if ?c1 then _ else _) ++ (if ?c2 then _ else _)
                 ++ (if ?c3 then _ else _) ++ (if ?c4 then _ else _))%list] =>
      destruct (guarded_blocks c1 c2 c3 c4) as (S & I1 & I2 & I3 & I4)
  end.
  cbv zeta in S, I1, I2, I3, I4.
  split; [exact S|]. rewrite I1, I2, I3, I4. clear S I1 I2 I3 I4.
  cbv [truthy bool_Truthy option_Truthy SystemInfo_Truthy].
  split; [|split; [|split]].
  - destruct (issueType (getData this)), (includeSystemInfo (getData this)),
      (systemInfo (getData this)); settle_guard.
  - destruct (issueType (getData this)), (includeProcessInfo (getData this));
      settle_guard.
  - destruct (issueType (getData this)),
      (includeWorkspaceInfo (getData this)); settle_guard.
  - destruct (issueType (getData this)),
      (Data.fileOnExtension (getData this)) as [[|]|],
      (includeExtensions (getData this)); settle_guard.
Qed.

Lemma infoBlocks_order_witness :
  In Spec.ProcessInfoBlock (Spec.infoBlocks Samples.perfTrace)
  /\ ~ In Spec.ProcessInfoBlock
        (Spec.infoBlocks (update Samples.perfTrace (single F_issueType Bug))).
Proof.
  split.
  - apply (proj2 (proj1 (proj2 (proj2 (proj2
             (infoBlocks_order Samples.perfTrace)))))).
    split; reflexivity.
  - intros I.
    apply (proj1 (proj1 (proj2 (proj2 (proj2
             (infoBlocks_order
                (update Samples.perfTrace (single F_issueType Bug)))))))) in I.
    destruct I as [I _]. discriminate I.
Defined.

(** X15.  A report that names the version of an extension has no Extensions
    section; and a truthy [fileOnExtension] flag without a
    [selectedExtension] gives neither of the two. *)
Theorem extensionVersion_excludes_extensions (this : t) :
  (getExtensionVersion this <> "" ->
   ~ In Spec.ExtensionsBlock (Spec.infoBlocks this))
  /\ (truthy (Data.fileOnExtension (getData this)) = true ->
      selectedExtension (getData this) = None ->
      getExtensionVersion this = ""
      /\ ~ In Spec.ExtensionsBlock (Spec.infoBlocks this)).
Proof.
  assert (N : truthy (Data.fileOnExtension (getData this)) = true ->
              ~ In Spec.ExtensionsBlock (Spec.infoBlocks this)).
  { unfold Spec.infoBlocks. intros ->.
    destruct (issueType (getData this)), (includeSystemInfo (getData this)),
      (truthy (systemInfo (getData this))),
      (includeProcessInfo (getData this)),
      (includeWorkspaceInfo (getData this)); cbn;
      intros H; repeat (destruct H as [H|H]; try discriminate H);
      contradiction. }
  split.
  - intros V. apply N.
    unfold getExtensionVersion, fileOnExtension, fileOnExtensionSupported,
      getData in *.
    destruct (Data.fileOnExtension (_data this)) as [[|]|];
      [reflexivity | | ];
      elim V; now destruct (issueType (_data this)).
  - intros F S. split; [|now apply N].
    unfold getExtensionVersion. unfold getData in S. rewrite S.
    now destruct (truthy (fileOnExtension this)).
Qed.

Lemma extensionVersion_excludes_extensions_witness :
  ~ In Spec.ExtensionsBlock (Spec.infoBlocks (Samples.bugOnExtension true))
  /\ getExtensionVersion
       (update (Samples.bugOnExtension true)
          (single F_selectedExtension None)) = "".
Proof.
  split.
  - apply (proj1 (extensionVersion_excludes_extensions
                    (Samples.bugOnExtension true))).
    discriminate.
  - apply (proj2 (extensionVersion_excludes_extensions
                    (update (Samples.bugOnExtension true)
                       (single F_selectedExtension None))));
      reflexivity.
Defined.

Lemma prefix_append_assoc4 (a b c d rest : string) :
  String.prefix (a ++ b ++ c ++ d) (a ++ b ++ c ++ d ++ rest) = true.
Proof.
  replace (a ++ b ++ c ++ d ++ rest) with ((a ++ b ++ c ++ d) ++ rest)
    by now rewrite !append_assoc.
  apply prefix_append.
Qed.

(** X16.  The System Info block opens with its [details] and [summary]
    lines and closes with [</details>] for every record, with or without a
    [systemInfo]; with one, every remote entry has its table or its error
    message in the block. *)
Theorem generateSystemInfoMd_block (this : t) :
  startsWith (generateSystemInfoMd this)
    ("<details>" ++ nl ++ "<summary>System Info</summary>" ++ nl) = true
  /\ endsWith (generateSystemInfoMd this) (nl ++ "</details>") = true
  /\ (forall (systemInfo0 : SystemInfo) (remote : RemoteData),
        systemInfo (getData this) = Some systemInfo0 ->
        In remote (remoteData systemInfo0) ->
        includes (generateSystemInfoMd this) (remoteSystemInfoMd remote)
        = true).
Proof.
  split; [|split].
  - unfold startsWith, generateSystemInfoMd.
    destruct (systemInfo (_data this)) as [si|]; cbv zeta.
    + rewrite fold_left_append.
      destruct (linuxEnv si); rewrite !append_assoc;
        apply prefix_append_assoc4.
    + rewrite !append_assoc. apply prefix_append_assoc4.
  - unfold generateSystemInfoMd. cbv zeta. apply endsWith_append.
  - intros si remote S I. unfold generateSystemInfoMd.
    unfold getData in S. rewrite S. cbv zeta. rewrite fold_left_append.
    apply includes_append_r, includes_append_l, includes_concat_In.
    now apply in_map.
Qed.

Lemma generateSystemInfoMd_block_witness :
  includes (generateSystemInfoMd Samples.withRemotes)
    (nl ++ nl ++ "Unable to connect") = true.
Proof.
  apply (proj2 (proj2 (generateSystemInfoMd_block Samples.withRemotes))
           Samples.remoteSystem
           (RemoteDiagnosticError "host-b" "Unable to connect")).
  - reflexivity.
  - right. left. reflexivity.
Defined.

(** X17.  The author column of the extensions table never holds more than
    three UTF-16 code units, and a table whose publishers all have at most
    three code units lists them in full. *)
Theorem generateExtensionsMd_author_column (this : t)
  (exts : list IssueReporterExtensionData) :
  truthy (extensionsDisabled (getData this)) = false ->
  enabledNonThemeExtesions (getData this) = Some exts ->
  (exists authors : list string,
     List.length authors = List.length exts
     /\ Forall (fun a => String_length a <= 3) authors
     /\ generateExtensionsMd this
        = "<details><summary>Extensions (" ++ toString (List.length exts)
          ++ ")</summary>" ++ nl ++ nl
          ++ "Extension|Author (truncated)|Version" ++ nl
          ++ "---|---|---" ++ nl
          ++ join nl
               (map (fun ea => name (fst ea) ++ "|" ++ snd ea ++ "|"
                               ++ version (fst ea))
                  (combine exts authors)) ++ nl
          ++ Spec.themeExclusionSuffix
               (numberOfThemeExtesions (getData this)) ++ nl
          ++ nl ++ "</details>")
  /\ (Forall (fun e => wellFormed (publisher e) = true
                       /\ String_length (publisher e) <= 3) exts ->
      generateExtensionsMd this
      = "<details><summary>Extensions (" ++ toString (List.length exts)
        ++ ")</summary>" ++ nl ++ nl
        ++ "Extension|Author (truncated)|Version" ++ nl
        ++ "---|---|---" ++ nl
        ++ join nl
             (map (fun e => name e ++ "|" ++ publisher e ++ "|"
                            ++ version e) exts) ++ nl
        ++ Spec.themeExclusionSuffix
             (numberOfThemeExtesions (getData this)) ++ nl
        ++ nl ++ "</details>").
Proof.
  intros D E. rewrite (generateExtensionsMd_enabled this D), E.
  unfold Spec.extensionsTable. split.
  - exists (map (fun e => substr (publisher e) 0 3) exts).
    split; [apply length_map|]. split.
    + apply Forall_forall. intros a I. apply in_map_iff in I.
      destruct I as [e [<- _]]. apply String_length_substr.
    + assert (M : map Spec.extensionRow exts
                  = map (fun ea => name (fst ea) ++ "|" ++ snd ea ++ "|"
                                   ++ version (fst ea))
                      (combine exts
                         (map (fun e => substr (publisher e) 0 3) exts))).
      { clear. induction exts as [|e l IH]; [reflexivity|].
        cbn [map combine fst snd]. now rewrite <- IH. }
      now rewrite M.
  - intros F.
    assert (M : map Spec.extensionRow exts
                = map (fun e => name e ++ "|" ++ publisher e ++ "|"
                                ++ version e) exts).
    { clear D E. induction F as [|e l [W S] _ IH]; [reflexivity|].
      cbn [map]. rewrite IH. unfold Spec.extensionRow.
      now rewrite (substr_whole _ 3 W S). }
    now rewrite M.
Qed.

Lemma generateExtensionsMd_author_column_witness :
  String_length "Łuk" = 3
  /\ generateExtensionsMd
       (update Samples.oneExtension
          (single F_enabledNonThemeExtesions
             (Some [ {| name := "Vim"; publisher := "Łuk";
                        version := "1.0" |} ])))
     = "<details><summary>Extensions (1)</summary>" ++ nl ++ nl
       ++ "Extension|Author (truncated)|Version" ++ nl
       ++ "---|---|---" ++ nl
       ++ "Vim|Łuk|1.0" ++ nl
       ++ nl ++ "(2 theme extensions excluded)" ++ nl
       ++ nl ++ "</details>".
Proof.
  split; [reflexivity|].
  apply (proj2 (generateExtensionsMd_author_column
                  (update Samples.oneExtension
                     (single F_enabledNonThemeExtesions
                        (Some [ {| name := "Vim"; publisher := "Łuk";
                                   version := "1.0" |} ])))
                  [ {| name := "Vim"; publisher := "Łuk";
                       version := "1.0" |} ]
                  eq_refl eq_refl)).
  repeat constructor.
Defined.

End Sections.

(** ** What the report contains *)

Section Contents.
Import IssueReporterModel Laws.

(** What the info slot holds, the report holds. *)
Lemma serialize_includes_infos (this : t) (x : string) :
  includes (getInfos this) x = true -> includes (serialize this) x = true.
Proof.
  intros H. unfold serialize.
  do 18 apply includes_append_l. now apply includes_append_r.
Qed.

Lemma getInfos_includes_block (this : t) (b : Spec.InfoBlock) :
  In b (Spec.infoBlocks this) ->
  includes (getInfos this) (Spec.renderBlock this b) = true.
Proof.
  intros I. rewrite getInfos_blocks.
  apply includes_concat_In. now apply in_map.
Qed.

(** X18.  Every section whose guard holds has its whole text in the
    report. *)
Theorem serialize_includes_block (this : t) (b : Spec.InfoBlock) :
  In b (Spec.infoBlocks this) ->
  includes (serialize this) (Spec.renderBlock this b) = true.
Proof.
  intros I. now apply serialize_includes_infos, getInfos_includes_block.
Qed.

Lemma serialize_includes_block_witness :
  includes (serialize Samples.oneExtension)
    (generateExtensionsMd Samples.oneExtension) = true.
Proof.
  apply (serialize_includes_block Samples.oneExtension Spec.ExtensionsBlock).
  left. reflexivity.
Defined.

(** X19.  A performance issue with [includeProcessInfo] carries the Process
    Info block even when [processInfo] is absent: its fenced body is then
    the text [undefined].  The same holds for [workspaceInfo], whose fenced
    body is then [undefined;]. *)
Theorem absent_dump_prints_undefined (this : t) :
  issueType (getData this) = PerformanceIssue ->
  (includeProcessInfo (getData this) = true ->
   processInfo (getData this) = None ->
   includes (serialize this)
     (Spec.collapsibleFenced "Process Info" "undefined") = true)
  /\ (includeWorkspaceInfo (getData this) = true ->
      workspaceInfo (getData this) = None ->
      includes (serialize this)
        (Spec.collapsibleFenced "Workspace Info" "undefined;") = true).
Proof.
  intros T. split; intros F A.
  - replace (Spec.collapsibleFenced "Process Info" "undefined")
      with (Spec.renderBlock this Spec.ProcessInfoBlock).
    + apply serialize_includes_infos, getInfos_includes_block.
      unfold Spec.infoBlocks. rewrite T, F. cbn.
      destruct (includeSystemInfo (getData this)
                && truthy (systemInfo (getData this)));
        cbn; auto.
    + unfold getData in A. cbn. unfold generateProcessInfoMd.
      now rewrite A.
  - replace (Spec.collapsibleFenced "Workspace Info" "undefined;")
      with (Spec.renderBlock this Spec.WorkspaceInfoBlock).
    + apply serialize_includes_infos, getInfos_includes_block.
      unfold Spec.infoBlocks. rewrite T, F. cbn.
      destruct (includeSystemInfo (getData this)
                && truthy (systemInfo (getData this))),
        (includeProcessInfo (getData this));
        cbn; auto.
    + unfold getData in A. cbn. unfold generateWorkspaceInfoMd.
      now rewrite A.
Qed.

Lemma absent_dump_prints_undefined_witness :
  includes
    (serialize (update Samples.perfTrace (single F_processInfo None)))
    (Spec.collapsibleFenced "Process Info" "undefined") = true.
Proof.
  apply (proj1 (absent_dump_prints_undefined
                  (update Samples.perfTrace (single F_processInfo None))
                  eq_refl));
    reflexivity.
Defined.

(** Reading every key of an object whose keys are distinct gives back its
    entries. *)
Lemma Object_get_keys (o : list (string * string)) :
  NoDup (Object_keys o) ->
  map (fun key => key ++ ": " ++ toString (Object_get o key)) (Object_keys o)
  = map (fun kv => fst kv ++ ": " ++ snd kv) o.
Proof.
  unfold Object_keys. induction o as [|[k v] o IH]; intros N.
  - reflexivity.
  - inversion N as [|k' l' NI N']; subst. cbn [map fst snd Object_get].
    rewrite String.eqb_refl. f_equal. rewrite <- (IH N').
    apply map_ext_in. intros key I.
    destruct (String.eqb k key) eqn:E; [|reflexivity].
    apply String.eqb_eq in E. subst key. now elim NI.
Qed.

Lemma includes_head5 (a b c d e rest : string) :
  includes (a ++ b ++ c ++ d ++ e ++ rest) (a ++ b ++ c ++ d ++ e) = true.
Proof.
  replace (a ++ b ++ c ++ d ++ e ++ rest)
    with ((a ++ b ++ c ++ d ++ e) ++ rest)
    by now rewrite !append_assoc.
  apply includes_head.
Qed.

(** X20.  The GPU Status row of the System Info block lists the entries of
    [gpuStatus] in order, each as [key: value], separated by [<br>]; an
    empty [gpuStatus] gives an empty cell. *)
Theorem generateSystemInfoMd_gpuStatus (this : t) (systemInfo0 : SystemInfo) :
  systemInfo (getData this) = Some systemInfo0 ->
  NoDup (Object_keys (gpuStatus systemInfo0)) ->
  includes (generateSystemInfoMd this)
    (nl ++ "|GPU Status|"
     ++ join "<br>"
          (map (fun kv => fst kv ++ ": " ++ snd kv) (gpuStatus systemInfo0))
     ++ "|" ++ nl) = true.
Proof.
  intros S N. unfold generateSystemInfoMd. unfold getData in S.
  rewrite S. cbv zeta. rewrite fold_left_append.
  rewrite (Object_get_keys _ N).
  do 2 apply includes_append_r.
  destruct (linuxEnv systemInfo0); [apply includes_append_r|];
    do 4 apply includes_append_l; apply includes_head5.
Qed.

Lemma generateSystemInfoMd_gpuStatus_witness :
  includes (generateSystemInfoMd Samples.withRemotes)
    (nl ++ "|GPU Status|webgl: enabled|" ++ nl) = true.
Proof.
  apply (generateSystemInfoMd_gpuStatus Samples.withRemotes
           Samples.remoteSystem).
  - reflexivity.
  - repeat constructor. intros [].
Defined.

End Contents.
